(** * workout_api.atleta.controller: the athlete resource handlers

    A shallow embedding of [src/workout_api/atleta/controller.py].  The six
    handlers ([post], [query], [query_paginated], [get], [patch], [delete])
    are written in a small state-and-exception monad over a model of the
    SQLAlchemy session they receive: the committed tables, the unit of work
    (pending inserts, loaded objects, pending deletes), the transaction
    state, and the two sources of values the handlers read from the process
    ([uuid4] and [datetime.utcnow]). *)

From Stdlib Require Import ZArith NArith String Ascii.
From Stdlib Require QArith.
From stdpp Require Import base option list strings gmap.

Local Open Scope string_scope.

(** ** Scalars *)

(** A UUID is its 128-bit integer value; [uuid_str] is Python's [str(uuid)],
    the 32 lower-case hex digits grouped 8-4-4-4-12. *)
Definition UUID : Type := N.

Definition hex_digits : list ascii :=
  ["0"; "1"; "2"; "3"; "4"; "5"; "6"; "7";
   "8"; "9"; "a"; "b"; "c"; "d"; "e"; "f"]%char.

Definition hex_digit (n : N) : ascii := nth (N.to_nat n) hex_digits "0"%char.

Fixpoint hex (width : nat) (n : N) : string :=
  match width with
  | O => ""
  | S w => hex w (n / 16)%N +:+ String (hex_digit (n mod 16)%N) ""
  end.

Definition uuid_str (u : UUID) : string :=
  let h := hex 32 u in
  substring 0 8 h +:+ "-" +:+ substring 8 4 h +:+ "-" +:+
  substring 12 4 h +:+ "-" +:+ substring 16 4 h +:+ "-" +:+
  substring 20 12 h.

(** A [datetime] is a count of microseconds; the handlers only copy it. *)
Definition datetime : Type := Z.

(** Weight and height are decimal scalars that the handlers store and copy
    and never compute with. *)
Definition scalar : Type := QArith_base.Q.

(** ** Schemas and tables

    Modelled from the spec: [atleta/schemas.py], [atleta/models.py],
    [categorias/models.py] and [centro_treinamento/models.py] are imported by
    the controller and are not among the sources.  The records below carry the
    attributes the spec's data model lists (name, CPF, sex, weight, height,
    id, creation timestamp, the two references) under the names the
    controller uses ([nome], [cpf], [id], [created_at], [categoria],
    [centro_treinamento], [categoria_id], [centro_treinamento_id], [pk_id]). *)

Module CategoriaIn.
Record t := mk { nome : string }.
End CategoriaIn.

Module CentroTreinamentoAtleta.
Record t := mk { nome : string }.
End CentroTreinamentoAtleta.

Module AtletaIn.
Record t := mk {
    nome : string;
    cpf : string;
    sexo : string;
    peso : scalar;
    altura : scalar;
    categoria : CategoriaIn.t;
    centro_treinamento : CentroTreinamentoAtleta.t
}.
End AtletaIn.

Module AtletaOut.
Record t := mk {
    id : UUID;
    created_at : datetime;
    nome : string;
    cpf : string;
    sexo : string;
    peso : scalar;
    altura : scalar;
    categoria : CategoriaIn.t;
    centro_treinamento : CentroTreinamentoAtleta.t
}.
End AtletaOut.

Module CategoriaModel.
Record t := mk { pk_id : Z; nome : string }.
End CategoriaModel.

Module CentroTreinamentoModel.
Record t := mk { pk_id : Z; nome : string }.
End CentroTreinamentoModel.

(** A row of the athlete table.  The row's primary key is modelled by its
    position in the table, which is what the session holds for a loaded
    object. *)
Module AtletaModel.
Record t := mk {
    id : UUID;
    created_at : datetime;
    nome : string;
    cpf : string;
    sexo : string;
    peso : scalar;
    altura : scalar;
    categoria_id : Z;
    centro_treinamento_id : Z
}.
End AtletaModel.

(** Modelled from the spec: the [AtletaUpdate] schema of [atleta/schemas.py]
    is not among the sources.  The spec's data model lets the descriptive
    attributes change through update and expects id, CPF and creation
    timestamp not to; the sparse body therefore carries [nome], [sexo],
    [peso] and [altura], each either unset ([None]) or set to a value. *)
Module AtletaUpdate.
Record t := mk {
    nome : option string;
    sexo : option string;
    peso : option scalar;
    altura : option scalar
}.
End AtletaUpdate.

(** One [key, value] item of [model_dump(exclude_unset=True)]. *)
Inductive Item :=
| nome_item (value : string)
| sexo_item (value : string)
| peso_item (value : scalar)
| altura_item (value : scalar).

Definition dump_field {A} (item : A → Item) (field : option A) : list Item :=
  match field with
  | Some value => [item value]
  | None => []
  end.

(** [atleta_up.model_dump(exclude_unset=True)]: the fields that were set, in
    declaration order. *)
Definition model_dump_exclude_unset (atleta_up : AtletaUpdate.t) : list Item :=
  dump_field nome_item (AtletaUpdate.nome atleta_up) ++
  dump_field sexo_item (AtletaUpdate.sexo atleta_up) ++
  dump_field peso_item (AtletaUpdate.peso atleta_up) ++
  dump_field altura_item (AtletaUpdate.altura atleta_up).

(** [setattr(atleta, key, value)] on a loaded row. *)
Definition setattr (atleta : AtletaModel.t) (item : Item) : AtletaModel.t :=
  let '(AtletaModel.mk id created_at nome cpf sexo peso altura cat ct) := atleta in
  match item with
  | nome_item value => AtletaModel.mk id created_at value cpf sexo peso altura cat ct
  | sexo_item value => AtletaModel.mk id created_at nome cpf value peso altura cat ct
  | peso_item value => AtletaModel.mk id created_at nome cpf sexo value altura cat ct
  | altura_item value => AtletaModel.mk id created_at nome cpf sexo peso value cat ct
  end.

(** ** The store, the session and the process environment *)

Record Database := mkDatabase {
  categorias : list CategoriaModel.t;
  centros_treinamento : list CentroTreinamentoModel.t;
  atletas : list AtletaModel.t
}.

(** [Inactive]: a flush has failed and the session waits for [rollback]. *)
Inductive Transaction := NoTransaction | Active | Inactive.

(** What a handler can read and change through [db_session] and the two
    library calls [uuid4()] and [datetime.utcnow()].
    - [store]: the committed tables.
    - [engine_fault]: [Some msg] when the storage engine fails the next
      commit for a reason of its own (connection lost, disk full, ...).
    - [new], [identity_map], [deleted]: the unit of work; a loaded athlete
      is held in [identity_map] under its position in the table.
    - [uuid_source], [uuid_drawn]: the values [uuid4()] returns, and how
      many have been taken.
    - [clock]: what [datetime.utcnow()] reads. *)
Record World := mkWorld {
  store : Database;
  engine_fault : option string;
  new : list AtletaModel.t;
  identity_map : gmap nat AtletaModel.t;
  deleted : list nat;
  transaction : Transaction;
  uuid_source : nat → UUID;
  uuid_drawn : nat;
  clock : datetime
}.

Definition set_new (l : list AtletaModel.t) (w : World) : World :=
  mkWorld (store w) (engine_fault w) l (identity_map w) (deleted w)
          (transaction w) (uuid_source w) (uuid_drawn w) (clock w).

Definition set_identity_map (m : gmap nat AtletaModel.t) (w : World) : World :=
  mkWorld (store w) (engine_fault w) (new w) m (deleted w)
          (transaction w) (uuid_source w) (uuid_drawn w) (clock w).

Definition set_deleted (l : list nat) (w : World) : World :=
  mkWorld (store w) (engine_fault w) (new w) (identity_map w) l
          (transaction w) (uuid_source w) (uuid_drawn w) (clock w).

Definition set_transaction (t : Transaction) (w : World) : World :=
  mkWorld (store w) (engine_fault w) (new w) (identity_map w) (deleted w)
          t (uuid_source w) (uuid_drawn w) (clock w).

Definition set_uuid_drawn (n : nat) (w : World) : World :=
  mkWorld (store w) (engine_fault w) (new w) (identity_map w) (deleted w)
          (transaction w) (uuid_source w) n (clock w).

Definition set_atletas (rows : list AtletaModel.t) (db : Database) : Database :=
  mkDatabase (categorias db) (centros_treinamento db) rows.

(** The unit of work holds nothing and no transaction is open. *)
Definition clean (w : World) : Prop :=
  new w = [] ∧ identity_map w = ∅ ∧ deleted w = [] ∧
  transaction w = NoTransaction.

(** Modelled from the spec: [get_session] comes from [configs/database.py],
    which is not among the sources; the spec has it yield a scoped session
    per request.  A session starts with an empty unit of work and no
    transaction. *)
Definition get_session (w : World) : World :=
  mkWorld (store w) (engine_fault w) [] ∅ [] NoTransaction
          (uuid_source w) (uuid_drawn w) (clock w).

(** ** Exceptions and the handler monad *)

Inductive Exn :=
| HTTPException (status_code : Z) (detail : string)
| IntegrityError (orig : string)
| OperationalError (orig : string)
| ValidationError
| InvalidRequestError.

Inductive Outcome (A : Type) :=
| Return (a : A)
| Raise (e : Exn).
Arguments Return {A} a.
Arguments Raise {A} e.

Definition M (A : Type) : Type := World → Outcome A * World.

Global Instance M_ret : MRet M := λ A a w, (Return a, w).

Global Instance M_bind : MBind M := λ A B f m w,
  match m w with
  | (Return a, w') => f a w'
  | (Raise e, w') => (Raise e, w')
  end.

Definition raise {A} (e : Exn) : M A := λ w, (Raise e, w).

Definition gets {A} (f : World → A) : M A := λ w, (Return (f w), w).

Definition modify (f : World → World) : M () := λ w, (Return (), f w).

(** [try: body except e: handler e].  An exception raised by the handler
    itself is not caught again. *)
Definition try_except {A} (body : M A) (handler : Exn → M A) : M A := λ w,
  match body w with
  | (Return a, w') => (Return a, w')
  | (Raise e, w') => handler e w'
  end.

(** ** HTTP status codes (fastapi.status) *)

Definition HTTP_200_OK : Z := 200.
Definition HTTP_201_CREATED : Z := 201.
Definition HTTP_204_NO_CONTENT : Z := 204.
Definition HTTP_303_SEE_OTHER : Z := 303.
Definition HTTP_400_BAD_REQUEST : Z := 400.
Definition HTTP_404_NOT_FOUND : Z := 404.
Definition HTTP_500_INTERNAL_SERVER_ERROR : Z := 500.

(** ** The session's operations *)

(** The session begins a transaction the first time it is used. *)
Definition autobegin (w : World) : World :=
  match transaction w with
  | NoTransaction => set_transaction Active w
  | _ => w
  end.

(** [(await db_session.execute(select(CategoriaModel).filter_by(nome=nome)))
     .scalars().first()] *)
Definition first_categoria (nome : string) : M (option CategoriaModel.t) :=
  modify autobegin;;
  gets (λ w, snd <$> list_find (λ c, CategoriaModel.nome c = nome)
                               (categorias (store w))).

(** [(await db_session.execute(
       select(CentroTreinamentoModel).filter_by(nome=nome))).scalars().first()] *)
Definition first_centro_treinamento (nome : string)
  : M (option CentroTreinamentoModel.t) :=
  modify autobegin;;
  gets (λ w, snd <$> list_find (λ c, CentroTreinamentoModel.nome c = nome)
                               (centros_treinamento (store w))).

(** A row read from the table enters the identity map, unless the session
    already holds that object. *)
Definition load (i : nat) (row : AtletaModel.t) (w : World) : World :=
  match identity_map w !! i with
  | Some _ => w
  | None => set_identity_map (<[i := row]> (identity_map w)) w
  end.

(** [(await db_session.execute(select(AtletaModel).filter_by(id=id)))
     .scalars().first()]: the loaded object, as its key in the identity map. *)
Definition first_atleta (id : UUID) : M (option nat) :=
  modify autobegin;;
  found ← gets (λ w, list_find (λ a, AtletaModel.id a = id) (atletas (store w)));
  match found with
  | Some (i, row) => modify (load i row);; mret (Some i)
  | None => mret None
  end.

(** Reading a loaded object. *)
Definition deref (atleta : nat) : M AtletaModel.t :=
  obj ← gets (λ w, identity_map w !! atleta);
  match obj with
  | Some a => mret a
  | None => raise InvalidRequestError
  end.

(** [setattr(atleta, key, value)] on the object the session holds. *)
Definition session_setattr (atleta : nat) (item : Item) : M () :=
  modify (λ w, set_identity_map
                 (alter (λ a, setattr a item) atleta (identity_map w)) w).

(** A select over the athlete table is its WHERE clause. *)
Definition Select : Type := AtletaModel.t → bool.

Definition select_AtletaModel : Select := λ _, true.

Definition query_filter (query : Select) (criterion : AtletaModel.t → bool)
  : Select := λ a, query a && criterion a.

(** [(await db_session.execute(query)).scalars().all()]: the matching rows
    in table order.  The rows are only read by their callers. *)
Definition scalars_all (query : Select) : M (list AtletaModel.t) :=
  modify autobegin;;
  gets (λ w, filter (λ a, query a = true) (atletas (store w))).

(** [db_session.add(atleta_model)] *)
Definition add (atleta_model : AtletaModel.t) : M () :=
  modify (λ w, set_new (new w ++ [atleta_model]) (autobegin w)).

(** [await db_session.delete(atleta)] *)
Definition session_delete (atleta : nat) : M () :=
  modify (λ w, set_deleted (deleted w ++ [atleta]) w).

(** The flush writes the unit of work to the table: the loaded objects go
    back to their rows, the pending rows are inserted at the end, and the
    rows marked deleted are removed. *)
Definition flush_updates (im : gmap nat AtletaModel.t)
    (rows : list AtletaModel.t) : list AtletaModel.t :=
  map_fold (λ i obj acc, <[i := obj]> acc) rows im.

(** The table's uniqueness constraint on [cpf] refuses an insert whose CPF a
    row already has. *)
Fixpoint flush_inserts (pending rows : list AtletaModel.t)
  : option (list AtletaModel.t) :=
  match pending with
  | [] => Some rows
  | m :: pending' =>
      if bool_decide (AtletaModel.cpf m ∈ AtletaModel.cpf <$> rows)
      then None
      else flush_inserts pending' (rows ++ [m])
  end.

Fixpoint flush_deletes (marked : list nat) (i : nat)
    (rows : list AtletaModel.t) : list AtletaModel.t :=
  match rows with
  | [] => []
  | r :: rows' =>
      if bool_decide (i ∈ marked)
      then flush_deletes marked (S i) rows'
      else r :: flush_deletes marked (S i) rows'
  end.

Definition flush (w : World) : Exn + list AtletaModel.t :=
  match engine_fault w with
  | Some msg => inl (OperationalError msg)
  | None =>
      match flush_inserts (new w)
              (flush_updates (identity_map w) (atletas (store w))) with
      | None => inl (IntegrityError "duplicate key value violates unique constraint")
      | Some rows => inr (flush_deletes (deleted w) 0 rows)
      end
  end.

(** [await db_session.commit()]: flush, then make the result the committed
    table; the loaded objects expire.  A failed flush changes no committed
    row: the engine undoes the statements already sent, the session drops
    its unit of work, and the transaction stays [Inactive] until the caller
    issues [rollback]. *)
Definition commit : M () := λ w,
  match flush w with
  | inl e =>
      (Raise e,
       mkWorld (store w) (engine_fault w) [] ∅ [] Inactive
               (uuid_source w) (uuid_drawn w) (clock w))
  | inr rows =>
      (Return (),
       mkWorld (set_atletas rows (store w)) (engine_fault w) [] ∅ []
               NoTransaction (uuid_source w) (uuid_drawn w) (clock w))
  end.

(** [await db_session.rollback()]: the unit of work is dropped and the
    transaction ends. *)
Definition rollback : M () :=
  modify (λ w, mkWorld (store w) (engine_fault w) [] ∅ [] NoTransaction
                       (uuid_source w) (uuid_drawn w) (clock w)).

(** [await db_session.refresh(atleta)]: the object is read again from its
    row. *)
Definition refresh (atleta : nat) : M () :=
  modify autobegin;;
  row ← gets (λ w, atletas (store w) !! atleta);
  match row with
  | Some a => modify (λ w, set_identity_map (<[atleta := a]> (identity_map w)) w)
  | None => raise InvalidRequestError
  end.

(** [uuid4()] *)
Definition uuid4 : M UUID := λ w,
  (Return (uuid_source w (uuid_drawn w)), set_uuid_drawn (S (uuid_drawn w)) w).

(** [datetime.utcnow()] *)
Definition utcnow : M datetime := gets clock.

(** [AtletaOut.model_validate(atleta)] reads the row's attributes and its two
    relationships, [atleta.categoria] and [atleta.centro_treinamento]. *)
Definition model_validate (atleta : AtletaModel.t) : M AtletaOut.t :=
  categoria ← gets (λ w, snd <$> list_find
      (λ c, CategoriaModel.pk_id c = AtletaModel.categoria_id atleta)
      (categorias (store w)));
  centro_treinamento ← gets (λ w, snd <$> list_find
      (λ c, CentroTreinamentoModel.pk_id c = AtletaModel.centro_treinamento_id atleta)
      (centros_treinamento (store w)));
  match categoria, centro_treinamento with
  | Some c, Some ct =>
      mret (AtletaOut.mk
              (AtletaModel.id atleta) (AtletaModel.created_at atleta)
              (AtletaModel.nome atleta) (AtletaModel.cpf atleta)
              (AtletaModel.sexo atleta) (AtletaModel.peso atleta)
              (AtletaModel.altura atleta)
              (CategoriaIn.mk (CategoriaModel.nome c))
              (CentroTreinamentoAtleta.mk (CentroTreinamentoModel.nome ct)))
  | _, _ => raise ValidationError
  end.

(** ** Pagination

    Modelled from the spec: [paginate] and [Page] belong to the pagination
    helper the controller imports, described as returning a bounded slice
    plus total-count metadata for a filtered query and page/size parameters.
    The parameters reach the helper from the request. *)

Module Params.
Record t := mk { page : nat; size : nat }.
End Params.

Module Page.
Record t (A : Type) := mk { items : list A; total : nat; page : nat; size : nat }.
Arguments mk {A} items total page size.
Arguments items {A} _.
Arguments total {A} _.
Arguments page {A} _.
Arguments size {A} _.
End Page.

Definition paginate (params : Params.t) (query : Select) : M (Page.t AtletaOut.t) :=
  rows ← scalars_all query;
  items ← mapM model_validate
    (take (Params.size params)
          (drop ((Params.page params - 1) * Params.size params) rows));
  mret (Page.mk items (length rows) (Params.page params) (Params.size params)).

(** ** The handlers *)

(** [if value: then_ else: else_] on an [Optional[str]]: [None] and the
    empty string are both false. *)
Definition if_truthy {A} (value : option string) (then_ : string → A) (else_ : A)
  : A :=
  match value with
  | Some s => if bool_decide (s = "") then else_ else then_ s
  | None => else_
  end.

(** [for item in items: body(item)] *)
Fixpoint for_each {A} (items : list A) (body : A → M ()) : M () :=
  match items with
  | [] => mret ()
  | item :: items' => body item;; for_each items' body
  end.

Module Response.
Record t (A : Type) := mk { status_code : Z; body : A }.
Arguments mk {A} status_code body.
Arguments status_code {A} _.
Arguments body {A} _.
End Response.

Module controller.

Definition post (atleta_in : AtletaIn.t) : M AtletaOut.t :=
  let categoria_nome := CategoriaIn.nome (AtletaIn.categoria atleta_in) in
  let centro_treinamento_nome :=
    CentroTreinamentoAtleta.nome (AtletaIn.centro_treinamento atleta_in) in
  categoria ← first_categoria categoria_nome;
  match categoria with
  | None =>
      raise (HTTPException HTTP_400_BAD_REQUEST
               ("A categoria " +:+ categoria_nome +:+ " não foi encontrada."))
  | Some categoria =>
      centro_treinamento ← first_centro_treinamento centro_treinamento_nome;
      match centro_treinamento with
      | None =>
          raise (HTTPException HTTP_400_BAD_REQUEST
                   ("O centro de treinamento " +:+ centro_treinamento_nome +:+
                    " não foi encontrado."))
      | Some centro_treinamento =>
          try_except
            (id ← uuid4;
             created_at ← utcnow;
             let atleta_out :=
               AtletaOut.mk id created_at
                 (AtletaIn.nome atleta_in) (AtletaIn.cpf atleta_in)
                 (AtletaIn.sexo atleta_in) (AtletaIn.peso atleta_in)
                 (AtletaIn.altura atleta_in) (AtletaIn.categoria atleta_in)
                 (AtletaIn.centro_treinamento atleta_in) in
             let atleta_model :=
               AtletaModel.mk
                 (AtletaOut.id atleta_out) (AtletaOut.created_at atleta_out)
                 (AtletaOut.nome atleta_out) (AtletaOut.cpf atleta_out)
                 (AtletaOut.sexo atleta_out) (AtletaOut.peso atleta_out)
                 (AtletaOut.altura atleta_out)
                 (CategoriaModel.pk_id categoria)
                 (CentroTreinamentoModel.pk_id centro_treinamento) in
             add atleta_model;;
             commit;;
             mret atleta_out)
            (λ e,
               match e with
               | IntegrityError _ =>
                   rollback;;
                   raise (HTTPException HTTP_303_SEE_OTHER
                            ("Já existe um atleta cadastrado com o cpf: " +:+
                             AtletaIn.cpf atleta_in))
               | _ =>
                   raise (HTTPException HTTP_500_INTERNAL_SERVER_ERROR
                            "Ocorreu um erro ao inserir os dados no banco")
               end)
      end
  end.

Definition query (nome cpf : option string) : M (list AtletaOut.t) :=
  let query := select_AtletaModel in
  let query :=
    if_truthy nome
      (λ nome, query_filter query (λ a, bool_decide (AtletaModel.nome a = nome)))
      query in
  let query :=
    if_truthy cpf
      (λ cpf, query_filter query (λ a, bool_decide (AtletaModel.cpf a = cpf)))
      query in
  atletas ← scalars_all query;
  mapM model_validate atletas.

Definition query_paginated (params : Params.t) (nome cpf : option string)
  : M (Page.t AtletaOut.t) :=
  let query := select_AtletaModel in
  let query :=
    if_truthy nome
      (λ nome, query_filter query (λ a, bool_decide (AtletaModel.nome a = nome)))
      query in
  let query :=
    if_truthy cpf
      (λ cpf, query_filter query (λ a, bool_decide (AtletaModel.cpf a = cpf)))
      query in
  paginate params query.

Definition not_found (id : UUID) : Exn :=
  HTTPException HTTP_404_NOT_FOUND
    ("Atleta não encontrado no id: " +:+ uuid_str id).

Definition get (id : UUID) : M nat :=
  atleta ← first_atleta id;
  match atleta with
  | None => raise (not_found id)
  | Some atleta => mret atleta
  end.

Definition patch (id : UUID) (atleta_up : AtletaUpdate.t) : M nat :=
  atleta ← first_atleta id;
  match atleta with
  | None => raise (not_found id)
  | Some atleta =>
      let atleta_update := model_dump_exclude_unset atleta_up in
      for_each atleta_update (λ item, session_setattr atleta item);;
      commit;;
      refresh atleta;;
      mret atleta
  end.

Definition delete (id : UUID) : M () :=
  atleta ← first_atleta id;
  match atleta with
  | None => raise (not_found id)
  | Some atleta =>
      session_delete atleta;;
      commit
  end.

End controller.

(** ** The routes

    The decorators fix the status of a successful answer and, with
    [response_model=AtletaOut], turn a returned row into its projection. *)

Definition route {A} (status_code : Z) (handler : M A) : M (Response.t A) :=
  body ← handler;
  mret (Response.mk status_code body).

Definition response_model (handler : M nat) : M AtletaOut.t :=
  atleta ← handler;
  obj ← deref atleta;
  model_validate obj.

Definition router_post (atleta_in : AtletaIn.t) : M (Response.t AtletaOut.t) :=
  route HTTP_201_CREATED (controller.post atleta_in).

Definition router_query (nome cpf : option string)
  : M (Response.t (list AtletaOut.t)) :=
  route HTTP_200_OK (controller.query nome cpf).

Definition router_query_paginated (params : Params.t) (nome cpf : option string)
  : M (Response.t (Page.t AtletaOut.t)) :=
  route HTTP_200_OK (controller.query_paginated params nome cpf).

Definition router_get (id : UUID) : M (Response.t AtletaOut.t) :=
  route HTTP_200_OK (response_model (controller.get id)).

Definition router_patch (id : UUID) (atleta_up : AtletaUpdate.t)
  : M (Response.t AtletaOut.t) :=
  route HTTP_200_OK (response_model (controller.patch id atleta_up)).

Definition router_delete (id : UUID) : M (Response.t ()) :=
  route HTTP_204_NO_CONTENT (controller.delete id).

(** [get_db]: a request runs its route on a session of its own, and the
    session is released when the request ends, whatever the outcome; what
    was not committed is gone. *)
Definition get_db {A} (endpoint : M A) (w : World) : Outcome A * World :=
  let '(r, w') := endpoint (get_session w) in (r, get_session w').

(** ** Reading the store without the monad *)

(** The projection [AtletaOut.model_validate] computes for a row. *)
Definition project (db : Database) (atleta : AtletaModel.t) : option AtletaOut.t :=
  c ← snd <$> list_find
      (λ c, CategoriaModel.pk_id c = AtletaModel.categoria_id atleta)
      (categorias db);
  ct ← snd <$> list_find
      (λ c, CentroTreinamentoModel.pk_id c = AtletaModel.centro_treinamento_id atleta)
      (centros_treinamento db);
  Some (AtletaOut.mk
          (AtletaModel.id atleta) (AtletaModel.created_at atleta)
          (AtletaModel.nome atleta) (AtletaModel.cpf atleta)
          (AtletaModel.sexo atleta) (AtletaModel.peso atleta)
          (AtletaModel.altura atleta)
          (CategoriaIn.mk (CategoriaModel.nome c))
          (CentroTreinamentoAtleta.mk (CentroTreinamentoModel.nome ct))).

(** Every athlete's two references point to rows that exist: the foreign
    keys of the athlete table. *)
Definition references_resolve (db : Database) : Prop :=
  ∀ a, a ∈ atletas db →
    (∃ c, c ∈ categorias db ∧
          CategoriaModel.pk_id c = AtletaModel.categoria_id a) ∧
    (∃ ct, ct ∈ centros_treinamento db ∧
           CentroTreinamentoModel.pk_id ct = AtletaModel.centro_treinamento_id a).

(** The session at the point where a handler has run its first select. *)
Definition begun (w : World) : World := set_transaction Active (get_session w).

(** ** A small store for the examples *)

Definition decimal (n : Z) (d : positive) : scalar := QArith_base.Qmake n d.

Definition jane : AtletaModel.t :=
  AtletaModel.mk 10%N 1000%Z "Jane" "12345678900" "F"
                 (decimal 605 10) (decimal 17 10) 1%Z 7%Z.

Definition jane_out : AtletaOut.t :=
  AtletaOut.mk 10%N 1000%Z "Jane" "12345678900" "F"
               (decimal 605 10) (decimal 17 10)
               (CategoriaIn.mk "Scale") (CentroTreinamentoAtleta.mk "CT King").

Definition fixture_db : Database :=
  mkDatabase [CategoriaModel.mk 1%Z "Scale"]
             [CentroTreinamentoModel.mk 7%Z "CT King"]
             [jane].

(** One category, one training center, one athlete; the engine is up, ten
    ids have been drawn and the next one is 11. *)
Definition fixture : World :=
  mkWorld fixture_db None [] ∅ [] NoTransaction N.of_nat 11 2000%Z.

Definition joao_in (cpf categoria centro_treinamento : string) : AtletaIn.t :=
  AtletaIn.mk "Joao" cpf "M" (decimal 75 1) (decimal 18 10)
              (CategoriaIn.mk categoria)
              (CentroTreinamentoAtleta.mk centro_treinamento).

Definition only_peso (value : scalar) : AtletaUpdate.t :=
  AtletaUpdate.mk None None (Some value) None.

Definition empty_update : AtletaUpdate.t := AtletaUpdate.mk None None None None.

(** ** The list filters, as predicates on rows *)

(** A filter value restricts an attribute when it is given and is not the
    empty string. *)
Definition filter_applies (value : option string) (attribute : string) : Prop :=
  match value with
  | Some s => s = "" ∨ attribute = s
  | None => True
  end.

Global Instance filter_applies_dec value attribute :
  Decision (filter_applies value attribute) :=
  match value with
  | Some s => or_dec (decide (s = "")) (decide (attribute = s))
  | None => left I
  end.

Definition selected (nome cpf : option string) (a : AtletaModel.t) : Prop :=
  filter_applies nome (AtletaModel.nome a) ∧
  filter_applies cpf (AtletaModel.cpf a).

(** The statement the two list handlers build. *)
Definition statement (nome cpf : option string) : Select :=
  let query := select_AtletaModel in
  let query :=
    if_truthy nome
      (λ nome, query_filter query (λ a, bool_decide (AtletaModel.nome a = nome)))
      query in
  if_truthy cpf
    (λ cpf, query_filter query (λ a, bool_decide (AtletaModel.cpf a = cpf)))
    query.

(** ** What [post] builds and where it leaves the session *)

(** The projection [post] answers with, for the id and the clock reading it
    took. *)
Definition created_out (atleta_in : AtletaIn.t) (id : UUID) (now : datetime)
  : AtletaOut.t :=
  AtletaOut.mk id now
    (AtletaIn.nome atleta_in) (AtletaIn.cpf atleta_in)
    (AtletaIn.sexo atleta_in) (AtletaIn.peso atleta_in)
    (AtletaIn.altura atleta_in) (AtletaIn.categoria atleta_in)
    (AtletaIn.centro_treinamento atleta_in).

(** The row [post] adds to the session. *)
Definition created_row (atleta_in : AtletaIn.t) (id : UUID) (now : datetime)
    (categoria : CategoriaModel.t) (centro_treinamento : CentroTreinamentoModel.t)
  : AtletaModel.t :=
  AtletaModel.mk id now
    (AtletaIn.nome atleta_in) (AtletaIn.cpf atleta_in)
    (AtletaIn.sexo atleta_in) (AtletaIn.peso atleta_in)
    (AtletaIn.altura atleta_in)
    (CategoriaModel.pk_id categoria)
    (CentroTreinamentoModel.pk_id centro_treinamento).

(** The session after one id was drawn, with nothing pending, over the
    given table and in the given transaction state. *)
Definition settled (rows : list AtletaModel.t) (t : Transaction) (w : World)
  : World :=
  mkWorld (set_atletas rows (store w)) (engine_fault w) [] ∅ [] t
          (uuid_source w) (S (uuid_drawn w)) (clock w).

(** Every stored id is one of the values [uuid4()] has already returned. *)
Definition ids_drawn (w : World) : Prop :=
  ∀ a, a ∈ atletas (store w) →
    ∃ i, i < uuid_drawn w ∧ AtletaModel.id a = uuid_source w i.

(** The fixture with a storage engine that fails every commit. *)
Definition broken_fixture : World :=
  mkWorld fixture_db (Some "connection lost") [] ∅ [] NoTransaction
          N.of_nat 11 2000%Z.

(** ** What [patch] and [delete] leave behind *)

(** The update as a field-by-field merge: a field set in the body takes the
    body's value, a field not set keeps the row's. *)
Definition patched (atleta_up : AtletaUpdate.t) (a : AtletaModel.t)
  : AtletaModel.t :=
  AtletaModel.mk
    (AtletaModel.id a) (AtletaModel.created_at a)
    (default (AtletaModel.nome a) (AtletaUpdate.nome atleta_up))
    (AtletaModel.cpf a)
    (default (AtletaModel.sexo a) (AtletaUpdate.sexo atleta_up))
    (default (AtletaModel.peso a) (AtletaUpdate.peso atleta_up))
    (default (AtletaModel.altura a) (AtletaUpdate.altura atleta_up))
    (AtletaModel.categoria_id a) (AtletaModel.centro_treinamento_id a).

(** The session after a commit and the refresh of the object held under
    [i]: the table is [rows], the object is [obj], and the refresh has begun
    a new transaction. *)
Definition refreshed (i : nat) (obj : AtletaModel.t) (rows : list AtletaModel.t)
    (w : World) : World :=
  mkWorld (set_atletas rows (store w)) (engine_fault w) [] {[ i := obj ]} []
          Active (uuid_source w) (uuid_drawn w) (clock w).

(** The session after a commit that made [rows] the table. *)
Definition committed (rows : list AtletaModel.t) (w : World) : World :=
  mkWorld (set_atletas rows (store w)) (engine_fault w) [] ∅ []
          NoTransaction (uuid_source w) (uuid_drawn w) (clock w).

(** The session of a get-by-id that found row [i]. *)
Definition loaded (i : nat) (obj : AtletaModel.t) (w : World) : World :=
  set_identity_map {[ i := obj ]} (begun w).

(** ** The invariant of the store

    What holds of every state the handlers produce from the empty store,
    as long as [uuid4()] never returns a value twice: athletes have
    distinct ids, each an id that was drawn, distinct CPFs, and references
    that resolve. *)
Record consistent (w : World) : Prop := mkConsistent {
  ids_unique : NoDup (AtletaModel.id <$> atletas (store w));
  cpfs_unique : NoDup (AtletaModel.cpf <$> atletas (store w));
  ids_were_drawn : ids_drawn w;
  refs_resolve : references_resolve (store w);
  source_inj : Inj (=) (=) (uuid_source w)
}.

(** ** Keys of the reference tables *)

(** The primary keys of the two reference tables identify their rows. *)
Definition keys_unique (db : Database) : Prop :=
  NoDup (CategoriaModel.pk_id <$> categorias db) ∧
  NoDup (CentroTreinamentoModel.pk_id <$> centros_treinamento db).

(** The session after a commit that failed: the tables are untouched, the
    unit of work is gone and the transaction waits for a rollback. *)
Definition failed (w : World) : World :=
  mkWorld (store w) (engine_fault w) [] ∅ [] Inactive
          (uuid_source w) (uuid_drawn w) (clock w).

(** The page the pagination helper cuts from an answer. *)
Definition page_of (params : Params.t) (outs : list AtletaOut.t)
  : Page.t AtletaOut.t :=
  Page.mk (take (Params.size params)
                (drop ((Params.page params - 1) * Params.size params) outs))
          (length outs) (Params.page params) (Params.size params).

(** * Properties of the handlers *)

(** ** Proof support *)

Ltac run :=
  repeat first
    [ progress unfold mbind, mret, M_bind, M_ret, raise, gets, modify,
        try_except, route, response_model
    | progress simpl ].

Lemma find_none_id (rows : list AtletaModel.t) (id : UUID) :
  (∀ a, a ∈ rows → AtletaModel.id a ≠ id) →
  list_find (λ a, AtletaModel.id a = id) rows = None.
Proof.
  intros H. apply list_find_None, Forall_forall. exact H.
Qed.

Lemma first_atleta_none (w : World) (id : UUID) :
  (∀ a, a ∈ atletas (store w) → AtletaModel.id a ≠ id) →
  first_atleta id (get_session w) = (Return None, begun w).
Proof.
  intros H. unfold first_atleta. run. by rewrite (find_none_id _ _ H).
Qed.

Lemma first_atleta_some (w : World) (id : UUID) (i : nat) (a : AtletaModel.t) :
  list_find (λ a, AtletaModel.id a = id) (atletas (store w)) = Some (i, a) →
  first_atleta id (get_session w)
  = (Return (Some i), set_identity_map {[ i := a ]} (begun w)).
Proof.
  intros H. unfold first_atleta. run. rewrite H. run.
  unfold load. run. by rewrite lookup_empty.
Qed.

(** ** Identifiers that resolve to no athlete *)

(** C4.  When no stored athlete has the requested id, each of get-by-id,
    partial update and delete raises the 404 error whose detail ends with
    the id as text, and the committed tables are the ones the request
    found; the session holds no pending change. *)
Theorem unknown_id_is_404 (w : World) (id : UUID) (atleta_up : AtletaUpdate.t) :
  (∀ a, a ∈ atletas (store w) → AtletaModel.id a ≠ id) →
  let e := HTTPException HTTP_404_NOT_FOUND
             ("Atleta não encontrado no id: " +:+ uuid_str id) in
  router_get id (get_session w) = (Raise e, begun w) ∧
  router_patch id atleta_up (get_session w) = (Raise e, begun w) ∧
  router_delete id (get_session w) = (Raise e, begun w) ∧
  store (begun w) = store w ∧
  new (begun w) = [] ∧ identity_map (begun w) = ∅ ∧ deleted (begun w) = [].
Proof.
  intros H e.
  pose proof (first_atleta_none w id H) as F.
  repeat split.
  - unfold router_get, controller.get. run. by rewrite F.
  - unfold router_patch, controller.patch. run. by rewrite F.
  - unfold router_delete, controller.delete. run. by rewrite F.
Qed.

Lemma unknown_id_is_404_witness :
  (∀ a, a ∈ atletas (store fixture) → AtletaModel.id a ≠ 11%N) ∧
  router_get 11%N (get_session fixture)
  = (Raise (HTTPException 404
       "Atleta não encontrado no id: 00000000-0000-0000-0000-00000000000b"),
     begun fixture).
Proof.
  assert (H : ∀ a, a ∈ atletas (store fixture) → AtletaModel.id a ≠ 11%N).
  { intros a Ha. apply list_elem_of_singleton in Ha. subst a. discriminate. }
  split; [exact H|].
  exact (proj1 (unknown_id_is_404 fixture 11%N empty_update H)).
Defined.

(** ** Creating an athlete *)

Lemma find_none_categoria (rows : list CategoriaModel.t) (nome : string) :
  (∀ c, c ∈ rows → CategoriaModel.nome c ≠ nome) →
  list_find (λ c, CategoriaModel.nome c = nome) rows = None.
Proof. intros H. apply list_find_None, Forall_forall. exact H. Qed.

Lemma find_some_categoria (rows : list CategoriaModel.t) (nome : string) :
  (∃ c, c ∈ rows ∧ CategoriaModel.nome c = nome) →
  ∃ i c, list_find (λ c, CategoriaModel.nome c = nome) rows = Some (i, c)
         ∧ c ∈ rows ∧ CategoriaModel.nome c = nome.
Proof.
  intros (c & Hin & Hn).
  destruct (list_find_elem_of (λ c, CategoriaModel.nome c = nome) rows c Hin Hn)
    as [[i c'] Hf].
  exists i, c'. split; [exact Hf|].
  apply list_find_Some in Hf as (Hl & HP & _).
  split; [by eapply list_elem_of_lookup_2|exact HP].
Qed.

Lemma find_none_centro (rows : list CentroTreinamentoModel.t) (nome : string) :
  (∀ c, c ∈ rows → CentroTreinamentoModel.nome c ≠ nome) →
  list_find (λ c, CentroTreinamentoModel.nome c = nome) rows = None.
Proof. intros H. apply list_find_None, Forall_forall. exact H. Qed.

Lemma find_some_centro (rows : list CentroTreinamentoModel.t) (nome : string) :
  (∃ c, c ∈ rows ∧ CentroTreinamentoModel.nome c = nome) →
  ∃ i c, list_find (λ c, CentroTreinamentoModel.nome c = nome) rows = Some (i, c)
         ∧ c ∈ rows ∧ CentroTreinamentoModel.nome c = nome.
Proof.
  intros (c & Hin & Hn).
  destruct (list_find_elem_of (λ c, CentroTreinamentoModel.nome c = nome) rows c Hin Hn)
    as [[i c'] Hf].
  exists i, c'. split; [exact Hf|].
  apply list_find_Some in Hf as (Hl & HP & _).
  split; [by eapply list_elem_of_lookup_2|exact HP].
Qed.

(** C3.  A create request whose category is not in the store raises the 400
    error that names the category, whatever the training center is: the
    category is looked up first.  When the category exists and the training
    center does not, the 400 error names the training center.  In both
    cases no athlete row is inserted or left pending. *)
Theorem post_unknown_reference_is_400 (w : World) (atleta_in : AtletaIn.t) :
  let categoria_nome := CategoriaIn.nome (AtletaIn.categoria atleta_in) in
  let centro_treinamento_nome :=
    CentroTreinamentoAtleta.nome (AtletaIn.centro_treinamento atleta_in) in
  ((∀ c, c ∈ categorias (store w) → CategoriaModel.nome c ≠ categoria_nome) →
   router_post atleta_in (get_session w)
   = (Raise (HTTPException HTTP_400_BAD_REQUEST
        ("A categoria " +:+ categoria_nome +:+ " não foi encontrada.")),
      begun w)) ∧
  ((∃ c, c ∈ categorias (store w) ∧ CategoriaModel.nome c = categoria_nome) →
   (∀ ct, ct ∈ centros_treinamento (store w) →
          CentroTreinamentoModel.nome ct ≠ centro_treinamento_nome) →
   router_post atleta_in (get_session w)
   = (Raise (HTTPException HTTP_400_BAD_REQUEST
        ("O centro de treinamento " +:+ centro_treinamento_nome +:+
         " não foi encontrado.")),
      begun w)) ∧
  atletas (store (begun w)) = atletas (store w) ∧ new (begun w) = [].
Proof.
  intros cn tn. split; [|split; [|done]].
  - intros H. unfold router_post, controller.post, first_categoria. run.
    fold cn. by rewrite (find_none_categoria _ _ H).
  - intros Hc Ht.
    destruct (find_some_categoria _ _ Hc) as (i & c & Hf & _).
    unfold router_post, controller.post, first_categoria,
      first_centro_treinamento. run.
    fold cn tn. rewrite Hf. run. by rewrite (find_none_centro _ _ Ht).
Qed.

Lemma post_unknown_reference_is_400_witness :
  router_post (joao_in "11122233344" "Elite" "Nowhere") (get_session fixture)
  = (Raise (HTTPException 400 "A categoria Elite não foi encontrada."),
     begun fixture) ∧
  router_post (joao_in "11122233344" "Scale" "Nowhere") (get_session fixture)
  = (Raise (HTTPException 400
       "O centro de treinamento Nowhere não foi encontrado."),
     begun fixture).
Proof.
  split.
  - apply (proj1 (post_unknown_reference_is_400 fixture
                    (joao_in "11122233344" "Elite" "Nowhere"))).
    intros c Hc. apply list_elem_of_singleton in Hc. subst c. discriminate.
  - apply (proj1 (proj2 (post_unknown_reference_is_400 fixture
                           (joao_in "11122233344" "Scale" "Nowhere")))).
    + exists (CategoriaModel.mk 1%Z "Scale").
      split; [apply list_elem_of_singleton|]; reflexivity.
    + intros c Hc. apply list_elem_of_singleton in Hc. subst c. discriminate.
Defined.

(** ** Listing *)

Lemma model_validate_project (atleta : AtletaModel.t) (w : World) :
  model_validate atleta w
  = match project (store w) atleta with
    | Some out => (Return out, w)
    | None => (Raise ValidationError, w)
    end.
Proof.
  unfold model_validate, project. run.
  destruct (list_find _ (categorias (store w))) as [[? ?]|];
    destruct (list_find _ (centros_treinamento (store w))) as [[? ?]|];
    reflexivity.
Qed.

Lemma run_bind {A B} (m : M A) (f : A → M B) (w : World) :
  (m ≫= f) w
  = match m w with
    | (Return a, w') => f a w'
    | (Raise e, w') => (Raise e, w')
    end.
Proof. reflexivity. Qed.

Lemma mapM_model_validate (rows : list AtletaModel.t) (w : World)
    (outs : list AtletaOut.t) :
  mapM (project (store w)) rows = Some outs →
  mapM model_validate rows w = (Return outs, w).
Proof.
  revert outs. induction rows as [|a rows IH]; intros outs H.
  - cbv in H. by simplify_eq.
  - simpl in H. simpl. rewrite run_bind, model_validate_project.
    destruct (project (store w) a) as [o|]; [|done]. simpl in H.
    destruct (mapM (project (store w)) rows) as [os|]; [|done].
    cbv [mbind option_bind mret option_ret] in H. simplify_eq.
    by rewrite run_bind, (IH os eq_refl).
Qed.

Lemma project_is_Some (db : Database) (a : AtletaModel.t) :
  references_resolve db → a ∈ atletas db → is_Some (project db a).
Proof.
  intros H Ha. destruct (H a Ha) as [(c & Hc & Hpk) (ct & Hct & Hpk')].
  unfold project.
  destruct (list_find_elem_of
              (λ c, CategoriaModel.pk_id c = AtletaModel.categoria_id a)
              _ c Hc Hpk) as [[i c'] ->].
  destruct (list_find_elem_of
              (λ c, CentroTreinamentoModel.pk_id c
                    = AtletaModel.centro_treinamento_id a)
              _ ct Hct Hpk') as [[j ct'] ->].
  simpl. eauto.
Qed.

Lemma project_all (db : Database) (rows : list AtletaModel.t) :
  references_resolve db → rows ⊆ atletas db →
  is_Some (mapM (project db) rows).
Proof.
  intros H Hsub. apply mapM_is_Some, Forall_forall. intros a Ha.
  apply project_is_Some; [exact H|by apply Hsub].
Qed.

Lemma query_statement (nome cpf : option string) :
  controller.query nome cpf
  = (atletas ← scalars_all (statement nome cpf); mapM model_validate atletas).
Proof. reflexivity. Qed.

Lemma query_paginated_statement (params : Params.t) (nome cpf : option string) :
  controller.query_paginated params nome cpf
  = paginate params (statement nome cpf).
Proof. reflexivity. Qed.

Lemma scalars_all_run (query : Select) (w : World) :
  scalars_all query (get_session w)
  = (Return (filter (λ a, query a = true) (atletas (store w))), begun w).
Proof. reflexivity. Qed.

Lemma filter_all {A} (P : A → Prop) `{∀ x, Decision (P x)} (l : list A) :
  (∀ x, P x) → filter P l = l.
Proof.
  intros HP. induction l as [|x l IH]; [done|].
  rewrite filter_cons_True by apply HP. by rewrite IH.
Qed.

(** The statement keeps the rows [selected] describes. *)
Lemma statement_selected (nome cpf : option string) (rows : list AtletaModel.t) :
  filter (λ a, statement nome cpf a = true) rows
  = filter (selected nome cpf) rows.
Proof.
  apply list_filter_iff. intros a.
  unfold statement, selected, filter_applies, if_truthy, query_filter,
    select_AtletaModel.
  destruct nome as [n|], cpf as [c|]; repeat case_bool_decide; simpl;
    rewrite ?bool_decide_eq_true; intuition congruence.
Qed.

(** C6, as the code has it.  In a store whose references resolve, the list
    handler answers 200 with the projections, in table order, of exactly the
    athletes whose name equals the [nome] filter, when that filter is given
    and is not the empty string, and whose CPF equals the [cpf] filter, when
    that one is given and is not the empty string.  With both filters
    absent the answer is the whole table. *)
Theorem query_returns_selected (w : World) (nome cpf : option string) :
  references_resolve (store w) →
  ∃ outs,
    router_query nome cpf (get_session w)
    = (Return (Response.mk HTTP_200_OK outs), begun w) ∧
    mapM (project (store w)) (filter (selected nome cpf) (atletas (store w)))
    = Some outs ∧
    (nome = None → cpf = None →
     mapM (project (store w)) (atletas (store w)) = Some outs).
Proof.
  intros H.
  destruct (project_all (store w)
              (filter (selected nome cpf) (atletas (store w))) H)
    as [outs Houts].
  { intros a Ha. by apply list_elem_of_filter in Ha as [_ Ha]. }
  exists outs. split; [|split; [exact Houts|]].
  - unfold router_query, route. rewrite query_statement, !run_bind.
    rewrite scalars_all_run, statement_selected.
    by rewrite (mapM_model_validate _ (begun w) outs Houts).
  - intros -> ->. rewrite <- Houts. f_equal.
    symmetry. apply filter_all. intros a. by split.
Qed.

Lemma fixture_references_resolve : references_resolve (store fixture).
Proof.
  intros a Ha. apply list_elem_of_singleton in Ha. subst a.
  split; eexists; (split; [apply list_elem_of_singleton|]); reflexivity.
Qed.

Lemma query_returns_selected_witness :
  references_resolve (store fixture) ∧
  ∃ outs,
    router_query (Some "Jane") None (get_session fixture)
    = (Return (Response.mk HTTP_200_OK outs), begun fixture) ∧
    mapM (project (store fixture))
         (filter (selected (Some "Jane") None) (atletas (store fixture)))
    = Some outs ∧
    (Some "Jane" = None → @None string = None →
     mapM (project (store fixture)) (atletas (store fixture)) = Some outs).
Proof.
  split; [exact fixture_references_resolve|].
  exact (query_returns_selected fixture (Some "Jane") None
           fixture_references_resolve).
Defined.

(** C6, as stated, fails for a filter given as the empty string: the
    answer to [nome=""] holds an athlete whose name is not the empty
    string. *)
Lemma query_empty_nome_returns_jane :
  router_query (Some "") None (get_session fixture)
  = (Return (Response.mk HTTP_200_OK [jane_out]), begun fixture) ∧
  AtletaOut.nome jane_out ≠ "".
Proof. split; [reflexivity|discriminate]. Qed.

(** ** Creating an athlete: conflict, failure, success *)

Lemma flush_deletes_nil (i : nat) (rows : list AtletaModel.t) :
  flush_deletes [] i rows = rows.
Proof.
  revert i. induction rows as [|r rows IH]; intros i; [done|].
  cbn [flush_deletes]. rewrite bool_decide_eq_false_2 by apply not_elem_of_nil.
  by rewrite IH.
Qed.

Lemma set_atletas_same (db : Database) : set_atletas (atletas db) db = db.
Proof. by destruct db. Qed.

(** The three ways [post] can end once both lookups have succeeded. *)
Lemma post_after_lookups (w : World) (atleta_in : AtletaIn.t)
    (i j : nat) (c : CategoriaModel.t) (ct : CentroTreinamentoModel.t) :
  list_find (λ c, CategoriaModel.nome c
                  = CategoriaIn.nome (AtletaIn.categoria atleta_in))
            (categorias (store w)) = Some (i, c) →
  list_find (λ c, CentroTreinamentoModel.nome c
                  = CentroTreinamentoAtleta.nome
                      (AtletaIn.centro_treinamento atleta_in))
            (centros_treinamento (store w)) = Some (j, ct) →
  let id := uuid_source w (uuid_drawn w) in
  let rows := atletas (store w) in
  controller.post atleta_in (get_session w)
  = match engine_fault w with
    | Some _ =>
        (Raise (HTTPException HTTP_500_INTERNAL_SERVER_ERROR
                  "Ocorreu um erro ao inserir os dados no banco"),
         settled rows Inactive w)
    | None =>
        if bool_decide (AtletaIn.cpf atleta_in ∈ AtletaModel.cpf <$> rows)
        then (Raise (HTTPException HTTP_303_SEE_OTHER
                       ("Já existe um atleta cadastrado com o cpf: " +:+
                        AtletaIn.cpf atleta_in)),
              settled rows NoTransaction w)
        else (Return (created_out atleta_in id (clock w)),
              settled (rows ++ [created_row atleta_in id (clock w) c ct])
                      NoTransaction w)
    end.
Proof.
  intros Hc Hct id rows. subst id rows.
  unfold controller.post, first_categoria, first_centro_treinamento. run.
  rewrite Hc. run. rewrite Hct. run.
  unfold commit, flush, flush_updates, settled. run.
  rewrite map_fold_empty, set_atletas_same.
  destruct (engine_fault w) as [msg|]; [reflexivity|].
  case_bool_decide; run; [reflexivity|].
  by rewrite flush_deletes_nil.
Qed.

Lemma route_run {A} (status_code : Z) (handler : M A) (w : World) :
  route status_code handler w
  = match handler w with
    | (Return body, w') => (Return (Response.mk status_code body), w')
    | (Raise e, w') => (Raise e, w')
    end.
Proof. reflexivity. Qed.

Lemma store_settled_same (w : World) (t : Transaction) :
  store (settled (atletas (store w)) t w) = store w.
Proof. unfold settled. simpl. apply set_atletas_same. Qed.

Lemma cpf_stored (rows : list AtletaModel.t) (cpf : string) :
  (∃ a, a ∈ rows ∧ AtletaModel.cpf a = cpf) ↔ cpf ∈ AtletaModel.cpf <$> rows.
Proof.
  rewrite list_elem_of_fmap. split; intros (a & H1 & H2); exists a; done.
Qed.

(** C1, as the code has it.  When the category and the training center of
    a create request both exist, the storage engine is working, and a stored
    athlete already has the request's CPF, the create raises the 303 error
    whose detail ends with that CPF.  The session was rolled back when the
    error was raised: its transaction is closed, nothing is pending, and the
    committed tables are the ones the request found. *)
Theorem post_duplicate_cpf_is_303 (w : World) (atleta_in : AtletaIn.t) :
  (∃ c, c ∈ categorias (store w) ∧
        CategoriaModel.nome c = CategoriaIn.nome (AtletaIn.categoria atleta_in)) →
  (∃ ct, ct ∈ centros_treinamento (store w) ∧
         CentroTreinamentoModel.nome ct
         = CentroTreinamentoAtleta.nome (AtletaIn.centro_treinamento atleta_in)) →
  engine_fault w = None →
  (∃ a, a ∈ atletas (store w) ∧ AtletaModel.cpf a = AtletaIn.cpf atleta_in) →
  let w' := settled (atletas (store w)) NoTransaction w in
  router_post atleta_in (get_session w)
  = (Raise (HTTPException HTTP_303_SEE_OTHER
       ("Já existe um atleta cadastrado com o cpf: " +:+ AtletaIn.cpf atleta_in)),
     w') ∧
  transaction w' = NoTransaction ∧ new w' = [] ∧ store w' = store w.
Proof.
  intros Hc Hct Heng Hdup w'.
  destruct (find_some_categoria _ _ Hc) as (i & c & Hfc & _).
  destruct (find_some_centro _ _ Hct) as (j & ct & Hfct & _).
  subst w'. split; [|repeat split; try done; apply store_settled_same].
  unfold router_post. rewrite route_run.
  rewrite (post_after_lookups w atleta_in i j c ct Hfc Hfct), Heng.
  by rewrite bool_decide_eq_true_2 by by apply cpf_stored.
Qed.

(** C2, on the code.  When both lookups succeed and the storage engine
    fails the commit for a reason of its own, the create raises the 500
    error with the fixed detail, whatever the engine's message was, and the
    handler has not rolled the session back: its transaction is still the
    failed one. *)
Theorem post_engine_failure_is_500_not_rolled_back
    (w : World) (atleta_in : AtletaIn.t) (msg : string) :
  (∃ c, c ∈ categorias (store w) ∧
        CategoriaModel.nome c = CategoriaIn.nome (AtletaIn.categoria atleta_in)) →
  (∃ ct, ct ∈ centros_treinamento (store w) ∧
         CentroTreinamentoModel.nome ct
         = CentroTreinamentoAtleta.nome (AtletaIn.centro_treinamento atleta_in)) →
  engine_fault w = Some msg →
  let w' := settled (atletas (store w)) Inactive w in
  router_post atleta_in (get_session w)
  = (Raise (HTTPException HTTP_500_INTERNAL_SERVER_ERROR
       "Ocorreu um erro ao inserir os dados no banco"),
     w') ∧
  transaction w' = Inactive ∧ transaction w' ≠ NoTransaction ∧
  store w' = store w.
Proof.
  intros Hc Hct Heng w'.
  destruct (find_some_categoria _ _ Hc) as (i & c & Hfc & _).
  destruct (find_some_centro _ _ Hct) as (j & ct & Hfct & _).
  subst w'. split; [|repeat split; try done; apply store_settled_same].
  unfold router_post. rewrite route_run.
  by rewrite (post_after_lookups w atleta_in i j c ct Hfc Hfct), Heng.
Qed.

(** C7, as the code has it.  When the category and the training center of
    a create request both exist, the storage engine is working, and no
    stored athlete has the request's CPF, the create answers 201 with the
    full projection: its id is the value [uuid4()] returned in this call and
    its timestamp is the clock reading of this call.  The row appended to
    the table carries that same id and timestamp and the keys of the two
    rows found.  When [uuid4()] never returns a value twice, the id differs
    from every id drawn before, hence from the id of every stored athlete
    whose id was drawn. *)
Theorem post_creates_athlete (w : World) (atleta_in : AtletaIn.t) :
  (∃ c, c ∈ categorias (store w) ∧
        CategoriaModel.nome c = CategoriaIn.nome (AtletaIn.categoria atleta_in)) →
  (∃ ct, ct ∈ centros_treinamento (store w) ∧
         CentroTreinamentoModel.nome ct
         = CentroTreinamentoAtleta.nome (AtletaIn.centro_treinamento atleta_in)) →
  engine_fault w = None →
  (∀ a, a ∈ atletas (store w) → AtletaModel.cpf a ≠ AtletaIn.cpf atleta_in) →
  let id := uuid_source w (uuid_drawn w) in
  let out := created_out atleta_in id (clock w) in
  ∃ c ct,
    c ∈ categorias (store w) ∧
    CategoriaModel.nome c = CategoriaIn.nome (AtletaIn.categoria atleta_in) ∧
    ct ∈ centros_treinamento (store w) ∧
    CentroTreinamentoModel.nome ct
    = CentroTreinamentoAtleta.nome (AtletaIn.centro_treinamento atleta_in) ∧
    let row := created_row atleta_in id (clock w) c ct in
    let w' := settled (atletas (store w) ++ [row]) NoTransaction w in
    router_post atleta_in (get_session w)
    = (Return (Response.mk HTTP_201_CREATED out), w') ∧
    atletas (store w') = (atletas (store w) ++ [row])%list ∧
    AtletaModel.id row = AtletaOut.id out ∧
    AtletaModel.created_at row = AtletaOut.created_at out ∧
    AtletaOut.created_at out = clock w ∧
    uuid_drawn w' = S (uuid_drawn w) ∧
    (Inj (=) (=) (uuid_source w) →
     (∀ k, k < uuid_drawn w → uuid_source w k ≠ id) ∧
     (ids_drawn w → ∀ a, a ∈ atletas (store w) → AtletaModel.id a ≠ id)).
Proof.
  intros Hc Hct Heng Hnew id out.
  destruct (find_some_categoria _ _ Hc) as (i & c & Hfc & Hcin & Hcn).
  destruct (find_some_centro _ _ Hct) as (j & ct & Hfct & Hctin & Hctn).
  exists c, ct. repeat (split; [done|]).
  intros row w'. split; [|repeat (split; [done|])].
  - unfold router_post. rewrite route_run.
    rewrite (post_after_lookups w atleta_in i j c ct Hfc Hfct), Heng.
    rewrite bool_decide_eq_false_2; [done|].
    intros (a & Ha & Hcpf)%cpf_stored. by apply (Hnew a).
  - intros Hinj.
    assert (Hk : ∀ k, k < uuid_drawn w → uuid_source w k ≠ id).
    { intros k Hk Heq. apply Hinj in Heq. lia. }
    split; [exact Hk|].
    intros Hids a Ha. destruct (Hids a Ha) as (k & Hlt & ->). by apply Hk.
Qed.

Lemma fixture_has_scale :
  ∃ c, c ∈ categorias fixture_db ∧ CategoriaModel.nome c = "Scale".
Proof.
  exists (CategoriaModel.mk 1%Z "Scale").
  split; [apply list_elem_of_singleton|]; reflexivity.
Qed.

Lemma fixture_has_ct_king :
  ∃ ct, ct ∈ centros_treinamento fixture_db ∧
        CentroTreinamentoModel.nome ct = "CT King".
Proof.
  exists (CentroTreinamentoModel.mk 7%Z "CT King").
  split; [apply list_elem_of_singleton|]; reflexivity.
Qed.

Lemma fixture_has_cpf :
  ∃ a, a ∈ atletas fixture_db ∧ AtletaModel.cpf a = "12345678900".
Proof. exists jane. split; [apply list_elem_of_singleton|]; reflexivity. Qed.

Lemma fixture_lacks_cpf :
  ∀ a, a ∈ atletas fixture_db → AtletaModel.cpf a ≠ "11122233344".
Proof. intros a Ha. apply list_elem_of_singleton in Ha. subst a. discriminate. Qed.

Lemma post_duplicate_cpf_is_303_witness :
  (∃ a, a ∈ atletas (store fixture) ∧ AtletaModel.cpf a = "12345678900") ∧
  router_post (joao_in "12345678900" "Scale" "CT King") (get_session fixture)
  = (Raise (HTTPException 303
       "Já existe um atleta cadastrado com o cpf: 12345678900"),
     settled [jane] NoTransaction fixture).
Proof.
  split; [exact fixture_has_cpf|].
  exact (proj1 (post_duplicate_cpf_is_303 fixture
                  (joao_in "12345678900" "Scale" "CT King")
                  fixture_has_scale fixture_has_ct_king eq_refl
                  fixture_has_cpf)).
Defined.

(** C1, as stated, fails when the request also names a category that does
    not exist: the CPF is the stored athlete's, and the error is the 400 of
    the category lookup, not the 303. *)
Lemma post_duplicate_cpf_unknown_categoria_is_400 :
  (∃ a, a ∈ atletas (store fixture) ∧ AtletaModel.cpf a = "12345678900") ∧
  router_post (joao_in "12345678900" "Elite" "CT King") (get_session fixture)
  = (Raise (HTTPException HTTP_400_BAD_REQUEST
       "A categoria Elite não foi encontrada."),
     begun fixture).
Proof. split; [exact fixture_has_cpf|reflexivity]. Qed.

Lemma post_engine_failure_is_500_not_rolled_back_witness :
  engine_fault broken_fixture = Some "connection lost" ∧
  router_post (joao_in "11122233344" "Scale" "CT King")
              (get_session broken_fixture)
  = (Raise (HTTPException 500 "Ocorreu um erro ao inserir os dados no banco"),
     settled [jane] Inactive broken_fixture) ∧
  transaction (settled [jane] Inactive broken_fixture) ≠ NoTransaction.
Proof.
  split; [reflexivity|].
  pose proof (post_engine_failure_is_500_not_rolled_back broken_fixture
                (joao_in "11122233344" "Scale" "CT King") "connection lost"
                fixture_has_scale fixture_has_ct_king eq_refl) as H.
  exact (conj (proj1 H) (proj1 (proj2 (proj2 H)))).
Defined.

Lemma fixture_uuid_source_inj : Inj (=) (=) (uuid_source fixture).
Proof. intros i j H. by apply Nat2N.inj. Qed.

Lemma fixture_ids_drawn : ids_drawn fixture.
Proof.
  intros a Ha. apply list_elem_of_singleton in Ha. subst a.
  exists 10. split; [simpl; lia|reflexivity].
Qed.

Lemma post_creates_athlete_witness :
  (∀ a, a ∈ atletas (store fixture) → AtletaModel.cpf a ≠ "11122233344") ∧
  ∃ c ct,
    router_post (joao_in "11122233344" "Scale" "CT King") (get_session fixture)
    = (Return (Response.mk 201
         (created_out (joao_in "11122233344" "Scale" "CT King") 11%N 2000%Z)),
       settled [jane; created_row (joao_in "11122233344" "Scale" "CT King")
                                  11%N 2000%Z c ct]
               NoTransaction fixture) ∧
    AtletaModel.id jane ≠ 11%N.
Proof.
  split; [exact fixture_lacks_cpf|].
  destruct (post_creates_athlete fixture
              (joao_in "11122233344" "Scale" "CT King")
              fixture_has_scale fixture_has_ct_king eq_refl fixture_lacks_cpf)
    as (c & ct & _ & _ & _ & _ & Hrun & _ & _ & _ & _ & _ & Hfresh).
  exists c, ct. split; [exact Hrun|].
  apply (proj2 (Hfresh fixture_uuid_source_inj) fixture_ids_drawn).
  apply list_elem_of_singleton. reflexivity.
Defined.

(** C7, as stated, fails when a stored athlete already has the request's
    CPF: the category and the training center both exist, and the create
    raises the 303 error instead of answering 201. *)
Lemma post_existing_references_duplicate_cpf_is_303 :
  (∃ c, c ∈ categorias (store fixture) ∧ CategoriaModel.nome c = "Scale") ∧
  (∃ ct, ct ∈ centros_treinamento (store fixture) ∧
         CentroTreinamentoModel.nome ct = "CT King") ∧
  router_post (joao_in "12345678900" "Scale" "CT King") (get_session fixture)
  = (Raise (HTTPException HTTP_303_SEE_OTHER
       "Já existe um atleta cadastrado com o cpf: 12345678900"),
     settled [jane] NoTransaction fixture).
Proof.
  split; [exact fixture_has_scale|]. split; [exact fixture_has_ct_king|].
  reflexivity.
Qed.

(** ** Partial update *)

Lemma session_setattr_run (i : nat) (item : Item) (w : World) :
  session_setattr i item w
  = (Return (),
     set_identity_map (alter (λ a, setattr a item) i (identity_map w)) w).
Proof. reflexivity. Qed.

Lemma for_each_setattr (i : nat) (items : list Item) (a : AtletaModel.t)
    (w : World) :
  identity_map w = {[ i := a ]} →
  for_each items (λ item, session_setattr i item) w
  = (Return (), set_identity_map {[ i := foldl setattr a items ]} w).
Proof.
  revert a w. induction items as [|item items IH]; intros a w Hw.
  - cbn [for_each foldl]. unfold mret, M_ret, set_identity_map.
    rewrite <- Hw. by destruct w.
  - cbn [for_each foldl].
    rewrite run_bind, session_setattr_run, Hw, alter_singleton_eq.
    by rewrite (IH (setattr a item)).
Qed.

(** The loop of [setattr] calls over the dumped body is the field-by-field
    merge. *)
Lemma setattr_loop_patched (atleta_up : AtletaUpdate.t) (a : AtletaModel.t) :
  foldl setattr a (model_dump_exclude_unset atleta_up) = patched atleta_up a.
Proof.
  destruct a, atleta_up as [[n|] [s|] [p|] [h|]]; reflexivity.
Qed.

Lemma found_row (rows : list AtletaModel.t) (id : UUID) (i : nat)
    (a : AtletaModel.t) :
  list_find (λ a, AtletaModel.id a = id) rows = Some (i, a) →
  rows !! i = Some a ∧ AtletaModel.id a = id ∧ a ∈ rows ∧ i < length rows.
Proof.
  intros (Hl & Hid & _)%list_find_Some.
  repeat split; [done|done|by eapply list_elem_of_lookup_2|].
  by eapply lookup_lt_Some.
Qed.

Lemma patch_run (w : World) (id : UUID) (atleta_up : AtletaUpdate.t)
    (i : nat) (a : AtletaModel.t) :
  list_find (λ a, AtletaModel.id a = id) (atletas (store w)) = Some (i, a) →
  engine_fault w = None →
  controller.patch id atleta_up (get_session w)
  = (Return i,
     refreshed i (patched atleta_up a)
               (<[i := patched atleta_up a]> (atletas (store w))) w).
Proof.
  intros Hf Heng. destruct (found_row _ _ _ _ Hf) as (Hl & _ & _ & Hlen).
  unfold controller.patch.
  rewrite run_bind, (first_atleta_some w id i a Hf).
  rewrite run_bind, (for_each_setattr i _ a) by done.
  rewrite setattr_loop_patched.
  rewrite run_bind. unfold commit, flush, flush_updates. simpl.
  rewrite Heng, map_fold_singleton. simpl. rewrite flush_deletes_nil.
  rewrite run_bind. unfold refresh. run.
  rewrite list_lookup_insert_eq by done. run.
  rewrite insert_empty. unfold refreshed, set_identity_map, autobegin. simpl.
  by rewrite Heng.
Qed.

Lemma project_patched (db : Database) (atleta_up : AtletaUpdate.t)
    (a : AtletaModel.t) (out : AtletaOut.t) :
  project db a = Some out →
  project db (patched atleta_up a)
  = Some (AtletaOut.mk
            (AtletaOut.id out) (AtletaOut.created_at out)
            (default (AtletaOut.nome out) (AtletaUpdate.nome atleta_up))
            (AtletaOut.cpf out)
            (default (AtletaOut.sexo out) (AtletaUpdate.sexo atleta_up))
            (default (AtletaOut.peso out) (AtletaUpdate.peso atleta_up))
            (default (AtletaOut.altura out) (AtletaUpdate.altura atleta_up))
            (AtletaOut.categoria out) (AtletaOut.centro_treinamento out)).
Proof.
  unfold project. simpl.
  destruct (list_find _ (categorias db)) as [[? c]|]; [|done].
  destruct (list_find _ (centros_treinamento db)) as [[? ct]|]; [|done].
  simpl. intros [= <-]. reflexivity.
Qed.

Lemma project_set_atletas (db : Database) (rows : list AtletaModel.t)
    (a : AtletaModel.t) :
  project (set_atletas rows db) a = project db a.
Proof. reflexivity. Qed.

Lemma response_model_run (handler : M nat) (w w' : World) (i : nat)
    (a : AtletaModel.t) (out : AtletaOut.t) :
  handler w = (Return i, w') →
  identity_map w' !! i = Some a →
  project (store w') a = Some out →
  response_model handler w = (Return out, w').
Proof.
  intros Hh Hi Hp. unfold response_model.
  rewrite run_bind, Hh. unfold deref. rewrite !run_bind. unfold gets.
  rewrite Hi. unfold mret, M_ret. by rewrite model_validate_project, Hp.
Qed.

Lemma get_run (w : World) (id : UUID) (i : nat) (a : AtletaModel.t) :
  list_find (λ a, AtletaModel.id a = id) (atletas (store w)) = Some (i, a) →
  controller.get id (get_session w) = (Return i, loaded i a w).
Proof.
  intros Hf. unfold controller.get.
  by rewrite run_bind, (first_atleta_some w id i a Hf).
Qed.

(** C5.  A partial update of a stored athlete, in a store whose references
    resolve and with the storage engine working, answers 200 with the
    projection of the refreshed row.  Each field set in the body has the
    body's value and each field not set has the value it had; id, creation
    timestamp, CPF, category and training center are the ones the athlete
    had.  So an update of [peso] alone leaves name, CPF, category and
    training center as they were.  The stored row is the merged one and
    every other row is untouched. *)
Theorem patch_applies_only_present_fields
    (w : World) (id : UUID) (atleta_up : AtletaUpdate.t)
    (i : nat) (a : AtletaModel.t) :
  list_find (λ a, AtletaModel.id a = id) (atletas (store w)) = Some (i, a) →
  engine_fault w = None →
  references_resolve (store w) →
  let rows := <[i := patched atleta_up a]> (atletas (store w)) in
  let w' := refreshed i (patched atleta_up a) rows w in
  ∃ before after,
    project (store w) a = Some before ∧
    router_patch id atleta_up (get_session w)
    = (Return (Response.mk HTTP_200_OK after), w') ∧
    AtletaOut.nome after
    = default (AtletaOut.nome before) (AtletaUpdate.nome atleta_up) ∧
    AtletaOut.sexo after
    = default (AtletaOut.sexo before) (AtletaUpdate.sexo atleta_up) ∧
    AtletaOut.peso after
    = default (AtletaOut.peso before) (AtletaUpdate.peso atleta_up) ∧
    AtletaOut.altura after
    = default (AtletaOut.altura before) (AtletaUpdate.altura atleta_up) ∧
    AtletaOut.id after = AtletaOut.id before ∧
    AtletaOut.created_at after = AtletaOut.created_at before ∧
    AtletaOut.cpf after = AtletaOut.cpf before ∧
    AtletaOut.categoria after = AtletaOut.categoria before ∧
    AtletaOut.centro_treinamento after = AtletaOut.centro_treinamento before ∧
    atletas (store w') !! i = Some (patched atleta_up a) ∧
    project (store w') (patched atleta_up a) = Some after ∧
    (∀ j, j ≠ i → atletas (store w') !! j = atletas (store w) !! j) ∧
    categorias (store w') = categorias (store w) ∧
    centros_treinamento (store w') = centros_treinamento (store w).
Proof.
  intros Hf Heng Href rows w'.
  destruct (found_row _ _ _ _ Hf) as (Hl & _ & Hin & Hlen).
  destruct (project_is_Some _ a Href Hin) as [before Hb].
  pose proof (project_patched _ atleta_up a before Hb) as Ha.
  eexists before, _. split; [exact Hb|]. split.
  - unfold router_patch. rewrite route_run.
    erewrite response_model_run;
      [reflexivity|by apply patch_run| |subst w' rows; exact Ha].
    apply lookup_singleton_eq.
  - repeat split; try reflexivity.
    + subst w' rows. simpl. by apply list_lookup_insert_eq.
    + subst w' rows. exact Ha.
    + intros j Hj. subst w' rows. simpl. by apply list_lookup_insert_ne.
Qed.

(** C10.  A partial update whose body sets no field, on a stored athlete,
    in a store whose references resolve and with the storage engine
    working, answers 200 with the projection get-by-id gives for that
    athlete, and the committed tables after it are the ones before it. *)
Theorem patch_without_fields_is_identity
    (w : World) (id : UUID) (i : nat) (a : AtletaModel.t) :
  list_find (λ a, AtletaModel.id a = id) (atletas (store w)) = Some (i, a) →
  engine_fault w = None →
  references_resolve (store w) →
  let w' := refreshed i a (atletas (store w)) w in
  ∃ out,
    project (store w) a = Some out ∧
    router_get id (get_session w)
    = (Return (Response.mk HTTP_200_OK out), loaded i a w) ∧
    router_patch id (AtletaUpdate.mk None None None None) (get_session w)
    = (Return (Response.mk HTTP_200_OK out), w') ∧
    store w' = store w ∧
    atletas (store w') !! i = Some a.
Proof.
  intros Hf Heng Href w'.
  destruct (found_row _ _ _ _ Hf) as (Hl & _ & Hin & Hlen).
  destruct (project_is_Some _ a Href Hin) as [out Hout].
  assert (Hsame : patched (AtletaUpdate.mk None None None None) a = a)
    by by destruct a.
  exists out. split; [exact Hout|]. split; [|split; [|split]].
  - unfold router_get. rewrite route_run.
    erewrite response_model_run;
      [reflexivity|by apply get_run| |exact Hout].
    apply lookup_singleton_eq.
  - unfold router_patch. rewrite route_run.
    erewrite response_model_run;
      [reflexivity| | |].
    + rewrite (patch_run w id _ i a Hf Heng), Hsame.
      by rewrite list_insert_id.
    + apply lookup_singleton_eq.
    + subst w'. exact Hout.
  - subst w'. unfold refreshed. simpl. apply set_atletas_same.
  - subst w'. simpl. exact Hl.
Qed.

Lemma patch_applies_only_present_fields_witness :
  list_find (λ a, AtletaModel.id a = 10%N) (atletas (store fixture))
  = Some (0, jane) ∧
  ∃ after,
    fst (router_patch 10%N (only_peso (decimal 70 1)) (get_session fixture))
    = Return (Response.mk 200 after) ∧
    AtletaOut.peso after = decimal 70 1 ∧
    AtletaOut.nome after = "Jane" ∧
    AtletaOut.cpf after = "12345678900" ∧
    AtletaOut.categoria after = CategoriaIn.mk "Scale" ∧
    AtletaOut.centro_treinamento after = CentroTreinamentoAtleta.mk "CT King".
Proof.
  split; [reflexivity|].
  destruct (patch_applies_only_present_fields fixture 10%N
              (only_peso (decimal 70 1)) 0 jane eq_refl eq_refl
              fixture_references_resolve)
    as (before & after & Hb & Hrun & Hn & _ & Hp & _ & _ & _ & Hc & Hcat & Hct & _).
  injection Hb as <-.
  exists after. rewrite Hrun.
  split; [reflexivity|]. split; [exact Hp|]. split; [exact Hn|].
  split; [exact Hc|]. split; [exact Hcat|exact Hct].
Defined.

Lemma patch_without_fields_is_identity_witness :
  list_find (λ a, AtletaModel.id a = 10%N) (atletas (store fixture))
  = Some (0, jane) ∧
  router_patch 10%N empty_update (get_session fixture)
  = (Return (Response.mk 200 jane_out), refreshed 0 jane [jane] fixture) ∧
  store (refreshed 0 jane [jane] fixture) = store fixture.
Proof.
  split; [reflexivity|].
  destruct (patch_without_fields_is_identity fixture 10%N 0 jane
              eq_refl eq_refl fixture_references_resolve)
    as (out & Hout & _ & Hrun & Hstore & _).
  injection Hout as <-.
  split; [exact Hrun|exact Hstore].
Defined.

(** ** Delete *)

Lemma flush_deletes_past (k i : nat) (rows : list AtletaModel.t) :
  (k < i)%nat → flush_deletes [k] i rows = rows.
Proof.
  revert i. induction rows as [|r rows IH]; intros i Hk; [done|].
  cbn [flush_deletes]. rewrite bool_decide_eq_false_2.
  - rewrite IH by lia. done.
  - intros ->%list_elem_of_singleton. lia.
Qed.

Lemma flush_deletes_single (k i : nat) (rows : list AtletaModel.t) :
  (i ≤ k)%nat → flush_deletes [k] i rows = delete (k - i) rows.
Proof.
  revert i. induction rows as [|r rows IH]; intros i Hk; [done|].
  cbn [flush_deletes]. destruct (decide (i = k)) as [->|Hne].
  - rewrite bool_decide_eq_true_2 by by apply list_elem_of_singleton.
    rewrite flush_deletes_past by lia. by rewrite Nat.sub_diag.
  - rewrite bool_decide_eq_false_2.
    + rewrite IH by lia. by replace (k - i) with (S (k - S i)) by lia.
    + intros ->%list_elem_of_singleton. done.
Qed.

Lemma delete_run (w : World) (id : UUID) (i : nat) (a : AtletaModel.t) :
  list_find (λ a, AtletaModel.id a = id) (atletas (store w)) = Some (i, a) →
  engine_fault w = None →
  controller.delete id (get_session w)
  = (Return (), committed (delete i (atletas (store w))) w).
Proof.
  intros Hf Heng. destruct (found_row _ _ _ _ Hf) as (Hl & _ & _ & Hlen).
  unfold controller.delete.
  rewrite run_bind, (first_atleta_some w id i a Hf).
  rewrite run_bind. unfold session_delete, modify, commit, flush, flush_updates.
  simpl. rewrite Heng, map_fold_singleton. simpl.
  rewrite list_insert_id by done.
  rewrite flush_deletes_single by lia. rewrite Nat.sub_0_r.
  unfold committed. by rewrite Heng.
Qed.

Lemma ids_distinct (rows : list AtletaModel.t) (i j : nat)
    (a b : AtletaModel.t) :
  NoDup (AtletaModel.id <$> rows) →
  rows !! i = Some a → rows !! j = Some b →
  AtletaModel.id a = AtletaModel.id b → i = j.
Proof.
  intros Hnd Ha Hb Hid.
  apply (proj1 (NoDup_alt _) Hnd i j (AtletaModel.id a));
    rewrite list_lookup_fmap; [by rewrite Ha|by rewrite Hb, Hid].
Qed.

Lemma deleted_rows (rows : list AtletaModel.t) (i : nat) (a b : AtletaModel.t) :
  NoDup (AtletaModel.id <$> rows) →
  rows !! i = Some a →
  b ∈ delete i rows ↔ b ∈ rows ∧ AtletaModel.id b ≠ AtletaModel.id a.
Proof.
  intros Hnd Ha. split.
  - intros Hb. split; [by eapply list_elem_of_delete_inv|].
    apply list_elem_of_lookup in Hb as [j Hj]. intros Hid.
    rewrite list_lookup_delete in Hj. case_decide.
    + assert (j = i) by (by eapply (ids_distinct rows j i b a)). lia.
    + assert (S j = i) by (by eapply (ids_distinct rows (S j) i b a)). lia.
  - intros [Hb Hid]. apply list_elem_of_lookup in Hb as [j Hj].
    assert (j ≠ i) by (intros ->; congruence).
    apply list_elem_of_lookup. destruct (decide (j < i)).
    + exists j. by rewrite list_lookup_delete_lt.
    + exists (j - 1). rewrite list_lookup_delete_ge by lia.
      by replace (S (j - 1)) with j by lia.
Qed.

(** C8.  Deleting a stored athlete, with the storage engine working and in
    a store whose athletes have distinct ids, answers 204 with no body and
    commits the table without that athlete's row: the rows left are exactly
    the other athletes, unchanged and in their order, and the reference
    tables are untouched.  A get-by-id on the same id in a later request
    raises the 404 error. *)
Theorem delete_removes_the_athlete
    (w : World) (id : UUID) (i : nat) (a : AtletaModel.t) :
  list_find (λ a, AtletaModel.id a = id) (atletas (store w)) = Some (i, a) →
  engine_fault w = None →
  NoDup (AtletaModel.id <$> atletas (store w)) →
  let w' := committed (delete i (atletas (store w))) w in
  router_delete id (get_session w)
  = (Return (Response.mk HTTP_204_NO_CONTENT ()), w') ∧
  atletas (store w') = delete i (atletas (store w)) ∧
  (∀ b, b ∈ atletas (store w') ↔
        b ∈ atletas (store w) ∧ AtletaModel.id b ≠ id) ∧
  categorias (store w') = categorias (store w) ∧
  centros_treinamento (store w') = centros_treinamento (store w) ∧
  router_get id (get_session w')
  = (Raise (HTTPException HTTP_404_NOT_FOUND
       ("Atleta não encontrado no id: " +:+ uuid_str id)),
     begun w').
Proof.
  intros Hf Heng Hnd w'.
  destruct (found_row _ _ _ _ Hf) as (Hl & Hid & _ & _).
  assert (Hrows : ∀ b, b ∈ atletas (store w') ↔
                       b ∈ atletas (store w) ∧ AtletaModel.id b ≠ id).
  { intros b. subst w'. simpl. rewrite <- Hid. by apply deleted_rows. }
  split; [|split; [done|split; [exact Hrows|split; [done|split; [done|]]]]].
  - unfold router_delete. rewrite route_run.
    by rewrite (delete_run w id i a Hf Heng).
  - unfold router_get, controller.get. rewrite route_run.
    unfold response_model. rewrite !run_bind, first_atleta_none; [done|].
    intros b Hb. by apply Hrows in Hb as [_ ?].
Qed.

Lemma delete_removes_the_athlete_witness :
  list_find (λ a, AtletaModel.id a = 10%N) (atletas (store fixture))
  = Some (0, jane) ∧
  router_delete 10%N (get_session fixture)
  = (Return (Response.mk 204 ()), committed [] fixture) ∧
  router_get 10%N (get_session (committed [] fixture))
  = (Raise (HTTPException 404
       "Atleta não encontrado no id: 00000000-0000-0000-0000-00000000000a"),
     begun (committed [] fixture)).
Proof.
  split; [reflexivity|].
  destruct (delete_removes_the_athlete fixture 10%N 0 jane eq_refl eq_refl
              (NoDup_singleton 10%N))
    as (Hrun & _ & _ & _ & _ & Hget).
  split; [exact Hrun|exact Hget].
Defined.

(** ** The invariant is kept

    The hypotheses of the results above on the store (distinct ids,
    references that resolve) are not extra demands on a request: they hold
    in the empty store, and creating, deleting and reading keep them. *)

Lemma route_world {A} (status_code : Z) (handler : M A) (w : World) :
  snd (route status_code handler w) = snd (handler w).
Proof. rewrite route_run. by destruct (handler w) as [[?|?] ?]. Qed.

Lemma response_model_world (handler : M nat) (w : World) :
  snd (response_model handler w) = snd (handler w).
Proof.
  unfold response_model. rewrite run_bind.
  destruct (handler w) as [[i|e] w1]; [|done].
  unfold deref. rewrite !run_bind. unfold gets.
  destruct (identity_map w1 !! i) as [a|]; [|done].
  unfold mret, M_ret. rewrite model_validate_project.
  by destruct (project (store w1) a).
Qed.

Lemma consistent_same_store (w w' : World) :
  store w' = store w → uuid_source w' = uuid_source w →
  (uuid_drawn w ≤ uuid_drawn w')%nat →
  consistent w → consistent w'.
Proof.
  intros Hs Hsrc Hd [H1 H2 H3 H4 H5].
  split; rewrite ?Hs, ?Hsrc; try done.
  intros a Ha. rewrite Hs in Ha. destruct (H3 a Ha) as (k & Hk & Hid).
  exists k. rewrite Hsrc. split; [lia|done].
Qed.

Lemma consistent_empty (w : World) :
  atletas (store w) = [] → Inj (=) (=) (uuid_source w) → consistent w.
Proof.
  intros Hrows Hinj. split; unfold ids_drawn, references_resolve;
    rewrite ?Hrows; try done; try apply NoDup_nil_2;
    intros a Ha; by apply elem_of_nil in Ha.
Qed.

(** Where [post] leaves the session: on the tables it found, or on the
    athlete table extended with the created row. *)
Lemma post_world (w : World) (atleta_in : AtletaIn.t) :
  let w' := snd (controller.post atleta_in (get_session w)) in
  (store w' = store w ∧ uuid_source w' = uuid_source w ∧
   (uuid_drawn w ≤ uuid_drawn w')%nat) ∨
  (∃ c ct,
     c ∈ categorias (store w) ∧ ct ∈ centros_treinamento (store w) ∧
     (AtletaIn.cpf atleta_in ∉ AtletaModel.cpf <$> atletas (store w)) ∧
     w' = settled ((atletas (store w) ++
                    [created_row atleta_in (uuid_source w (uuid_drawn w))
                                 (clock w) c ct])%list)
                  NoTransaction w).
Proof.
  intros w'. subst w'.
  destruct (list_find (λ c, CategoriaModel.nome c
              = CategoriaIn.nome (AtletaIn.categoria atleta_in))
              (categorias (store w))) as [[i c]|] eqn:Hc.
  - destruct (list_find (λ c, CentroTreinamentoModel.nome c
                = CentroTreinamentoAtleta.nome
                    (AtletaIn.centro_treinamento atleta_in))
                (centros_treinamento (store w))) as [[j ct]|] eqn:Hct.
    + rewrite (post_after_lookups w atleta_in i j c ct Hc Hct).
      destruct (engine_fault w) as [msg|].
      { left. simpl. rewrite set_atletas_same. split; [done|split; [done|lia]]. }
      case_bool_decide as Hcpf.
      { left. simpl. rewrite set_atletas_same. split; [done|split; [done|lia]]. }
      right. exists c, ct.
      apply list_find_Some in Hc as (Hc & _). apply list_find_Some in Hct as (Hct & _).
      repeat split; [by eapply list_elem_of_lookup_2
                    |by eapply list_elem_of_lookup_2|done].
    + left. unfold controller.post, first_categoria, first_centro_treinamento.
      run. rewrite Hc. run. rewrite Hct. run. done.
  - left. unfold controller.post, first_categoria. run. rewrite Hc. run. done.
Qed.

(** X13.  A create keeps the store consistent, whether it answers or
    raises: afterwards the athletes still have distinct ids, all drawn from
    [uuid4()], and distinct CPFs, and every athlete's category and training
    center still exist. *)
Lemma post_preserves_consistent (w : World) (atleta_in : AtletaIn.t) :
  consistent w → consistent (snd (router_post atleta_in (get_session w))).
Proof.
  intros Hw. unfold router_post. rewrite route_world.
  destruct (post_world w atleta_in)
    as [(Hs & Hsrc & Hd)|(c & ct & Hc & Hct & Hcpf & ->)].
  { by apply (consistent_same_store w). }
  destruct Hw as [Hids Hcpfs Hdrawn Hrefs Hinj].
  set (id := uuid_source w (uuid_drawn w)).
  assert (Hfresh : id ∉ AtletaModel.id <$> atletas (store w)).
  { intros (a & Hid & Ha)%list_elem_of_fmap.
    destruct (Hdrawn a Ha) as (k & Hk & Hka). rewrite Hka in Hid.
    apply Hinj in Hid. lia. }
  split; simpl.
  - rewrite fmap_app. apply NoDup_app. split; [done|]. split.
    + intros x Hx ->%list_elem_of_singleton. done.
    + apply NoDup_singleton.
  - rewrite fmap_app. apply NoDup_app. split; [done|]. split.
    + intros x Hx ->%list_elem_of_singleton. done.
    + apply NoDup_singleton.
  - intros a [Ha| ->%list_elem_of_singleton]%elem_of_app; simpl.
    + destruct (Hdrawn a Ha) as (k & Hk & Hka). exists k. split; [lia|done].
    + exists (uuid_drawn w). split; [lia|done].
  - intros a [Ha| ->%list_elem_of_singleton]%elem_of_app; simpl.
    + by apply Hrefs.
    + split; [by exists c|by exists ct].
  - done.
Qed.

Lemma first_atleta_find_none (w : World) (id : UUID) :
  list_find (λ a, AtletaModel.id a = id) (atletas (store w)) = None →
  first_atleta id (get_session w) = (Return None, begun w).
Proof. intros H. unfold first_atleta. run. by rewrite H. Qed.

(** Where [patch] leaves the committed tables: as it found them, or with
    the one row merged. *)
Lemma patch_world (w : World) (id : UUID) (atleta_up : AtletaUpdate.t) :
  let w' := snd (controller.patch id atleta_up (get_session w)) in
  uuid_source w' = uuid_source w ∧ uuid_drawn w' = uuid_drawn w ∧
  (store w' = store w ∨
   ∃ i a, atletas (store w) !! i = Some a ∧
          store w' = set_atletas (<[i := patched atleta_up a]> (atletas (store w)))
                                 (store w)).
Proof.
  intros w'. subst w'.
  destruct (list_find (λ a, AtletaModel.id a = id) (atletas (store w)))
    as [[i a]|] eqn:Hf.
  - destruct (engine_fault w) as [msg|] eqn:Heng.
    + unfold controller.patch.
      rewrite run_bind, (first_atleta_some w id i a Hf).
      rewrite run_bind, (for_each_setattr i _ a) by done.
      rewrite run_bind. unfold commit, flush. simpl. rewrite Heng. simpl.
      split; [done|]. split; [done|]. by left.
    + rewrite (patch_run w id atleta_up i a Hf Heng). simpl.
      split; [done|]. split; [done|]. right. exists i, a.
      split; [|done]. by apply found_row in Hf as (? & _).
  - unfold controller.patch. rewrite run_bind, first_atleta_find_none by done.
    simpl. split; [done|]. split; [done|]. by left.
Qed.

Lemma elem_of_insert_inv {A} (l : list A) (i : nat) (x y : A) :
  y ∈ <[i := x]> l → y = x ∨ y ∈ l.
Proof.
  intros [j Hj]%list_elem_of_lookup. destruct (decide (i = j)) as [->|Hne].
  - destruct (decide (j < length l)%nat).
    + rewrite list_lookup_insert_eq in Hj by done. left. congruence.
    + rewrite list_insert_ge in Hj by lia. right. by eapply list_elem_of_lookup_2.
  - rewrite list_lookup_insert_ne in Hj by done.
    right. by eapply list_elem_of_lookup_2.
Qed.

(** Where [delete] leaves the committed tables: as it found them, or
    without the one row. *)
Lemma delete_world (w : World) (id : UUID) :
  let w' := snd (controller.delete id (get_session w)) in
  uuid_source w' = uuid_source w ∧ uuid_drawn w' = uuid_drawn w ∧
  (store w' = store w ∨
   ∃ i, store w' = set_atletas (delete i (atletas (store w))) (store w)).
Proof.
  intros w'. subst w'.
  destruct (list_find (λ a, AtletaModel.id a = id) (atletas (store w)))
    as [[i a]|] eqn:Hf.
  - destruct (engine_fault w) as [msg|] eqn:Heng.
    + unfold controller.delete.
      rewrite run_bind, (first_atleta_some w id i a Hf).
      rewrite run_bind. unfold session_delete, modify, commit, flush.
      simpl. rewrite Heng. simpl.
      split; [done|]. split; [done|]. by left.
    + rewrite (delete_run w id i a Hf Heng). simpl.
      split; [done|]. split; [done|]. right. by exists i.
  - unfold controller.delete. rewrite run_bind, first_atleta_find_none by done.
    simpl. split; [done|]. split; [done|]. by left.
Qed.

(** X15.  A delete keeps the store consistent, whether it answers or
    raises: the athletes left still have distinct ids and CPFs and
    references that resolve. *)
Lemma delete_preserves_consistent (w : World) (id : UUID) :
  consistent w → consistent (snd (router_delete id (get_session w))).
Proof.
  intros Hw. unfold router_delete. rewrite route_world.
  destruct (delete_world w id) as (Hsrc & Hd & [Hs|(i & Hs)]).
  { apply (consistent_same_store w); [done|done|lia|done]. }
  destruct Hw as [Hids Hcpfs Hdrawn Hrefs Hinj].
  split; rewrite ?Hs, ?Hsrc, ?Hd; simpl.
  - rewrite list_fmap_delete. eapply sublist_NoDup; [exact Hids|].
    apply sublist_delete.
  - rewrite list_fmap_delete. eapply sublist_NoDup; [exact Hcpfs|].
    apply sublist_delete.
  - intros b Hb. rewrite Hs in Hb. simpl in Hb. rewrite Hsrc, Hd.
    apply Hdrawn. by eapply list_elem_of_delete_inv.
  - intros b Hb. simpl in Hb. apply Hrefs.
    by eapply list_elem_of_delete_inv.
  - done.
Qed.

(** The reading handlers change no table. *)
Lemma get_preserves_consistent (w : World) (id : UUID) :
  consistent w → consistent (snd (router_get id (get_session w))).
Proof.
  intros Hw. unfold router_get. rewrite route_world, response_model_world.
  apply (consistent_same_store w); try done.
  all: unfold controller.get; rewrite run_bind;
    destruct (list_find (λ a, AtletaModel.id a = id) (atletas (store w)))
      as [[i a]|] eqn:Hf;
    [rewrite (first_atleta_some w id i a Hf)
    |rewrite first_atleta_find_none by done]; simpl; done.
Qed.

(** ** Requests *)

(** Whatever the route did, the request ends with the session released:
    nothing is pending, no transaction is open, and the committed tables are
    the ones the route left. *)
Lemma get_db_releases {A} (endpoint : M A) (w : World) :
  clean (snd (get_db endpoint w)) ∧
  store (snd (get_db endpoint w)) = store (snd (endpoint (get_session w))).
Proof.
  unfold get_db. destruct (endpoint (get_session w)) as [r w']. simpl.
  by repeat split.
Qed.

(** * Further properties of the handlers *)

(** ** Reading *)

(** X1.  Get-by-id on a stored athlete, in a store whose references
    resolve, answers 200 with the projection of the first row that has the
    id: the row's own attributes and the names of the category and training
    center its keys point to.  The committed tables are unchanged and
    nothing is pending. *)
Theorem get_returns_the_projection
    (w : World) (id : UUID) (i : nat) (a : AtletaModel.t) :
  list_find (λ a, AtletaModel.id a = id) (atletas (store w)) = Some (i, a) →
  references_resolve (store w) →
  ∃ out,
    router_get id (get_session w)
    = (Return (Response.mk HTTP_200_OK out), loaded i a w) ∧
    project (store w) a = Some out ∧
    AtletaOut.id out = id ∧
    AtletaOut.nome out = AtletaModel.nome a ∧
    AtletaOut.cpf out = AtletaModel.cpf a ∧
    store (loaded i a w) = store w ∧
    new (loaded i a w) = [] ∧ deleted (loaded i a w) = [].
Proof.
  intros Hf Href.
  destruct (found_row _ _ _ _ Hf) as (Hl & Hid & Hin & _).
  destruct (project_is_Some _ a Href Hin) as [out Hout].
  exists out. split; [|split; [exact Hout|]].
  - unfold router_get. rewrite route_run.
    erewrite response_model_run;
      [reflexivity|by apply get_run| |exact Hout].
    apply lookup_singleton_eq.
  - unfold project in Hout.
    destruct (list_find _ (categorias (store w))) as [[? c]|]; [|done].
    destruct (list_find _ (centros_treinamento (store w))) as [[? ct]|]; [|done].
    simpl in Hout. injection Hout as <-. by repeat split.
Qed.

Lemma get_returns_the_projection_witness :
  list_find (λ a, AtletaModel.id a = 10%N) (atletas (store fixture))
  = Some (0, jane) ∧
  router_get 10%N (get_session fixture)
  = (Return (Response.mk 200 jane_out), loaded 0 jane fixture).
Proof.
  split; [reflexivity|].
  destruct (get_returns_the_projection fixture 10%N 0 jane eq_refl
              fixture_references_resolve) as (out & Hrun & Hout & _).
  injection Hout as <-. exact Hrun.
Defined.

Lemma mapM_model_validate_world (rows : list AtletaModel.t) (w : World) :
  snd (mapM model_validate rows w) = w.
Proof.
  induction rows as [|a rows IH]; [done|].
  simpl. rewrite run_bind, model_validate_project.
  destruct (project (store w) a) as [o|]; [|done].
  rewrite run_bind. destruct (mapM model_validate rows w) as [[os|e] w1].
  - simpl in IH. by subst w1.
  - simpl in IH. by subst w1.
Qed.

(** X2.  The three reading handlers write nothing, whatever their
    arguments and whether they answer or raise: after get-by-id, list and
    paginated list the committed tables are the ones before, no insert and
    no delete is pending, and no id was drawn. *)
Theorem reading_handlers_write_nothing
    (w : World) (id : UUID) (params : Params.t) (nome cpf : option string) :
  let after_get := snd (router_get id (get_session w)) in
  let after_query := snd (router_query nome cpf (get_session w)) in
  let after_page :=
    snd (router_query_paginated params nome cpf (get_session w)) in
  (store after_get = store w ∧ new after_get = [] ∧ deleted after_get = [] ∧
   uuid_drawn after_get = uuid_drawn w) ∧
  after_query = begun w ∧
  after_page = begun w.
Proof.
  intros after_get after_query after_page. split; [|split].
  - subst after_get. unfold router_get.
    rewrite route_world, response_model_world.
    unfold controller.get. rewrite run_bind.
    destruct (list_find (λ a, AtletaModel.id a = id) (atletas (store w)))
      as [[i a]|] eqn:Hf;
      [rewrite (first_atleta_some w id i a Hf)
      |rewrite first_atleta_find_none by done]; done.
  - subst after_query. unfold router_query.
    rewrite route_world, query_statement, run_bind, scalars_all_run.
    apply mapM_model_validate_world.
  - subst after_page. unfold router_query_paginated.
    rewrite route_world, query_paginated_statement. unfold paginate.
    rewrite run_bind, scalars_all_run, run_bind.
    pose proof (mapM_model_validate_world
      (take (Params.size params)
         (drop ((Params.page params - 1) * Params.size params)
            (filter (λ a, statement nome cpf a = true) (atletas (store w)))))
      (begun w)) as H.
    destruct (mapM model_validate _ (begun w)) as [[os|e] w1];
      simpl in H; by subst w1.
Qed.

(** ** Update and delete when the commit fails *)

Lemma patch_run_failure (w : World) (id : UUID) (atleta_up : AtletaUpdate.t)
    (i : nat) (a : AtletaModel.t) (msg : string) :
  list_find (λ a, AtletaModel.id a = id) (atletas (store w)) = Some (i, a) →
  engine_fault w = Some msg →
  controller.patch id atleta_up (get_session w)
  = (Raise (OperationalError msg), failed w).
Proof.
  intros Hf Heng. unfold controller.patch.
  rewrite run_bind, (first_atleta_some w id i a Hf).
  rewrite run_bind, (for_each_setattr i _ a) by done.
  rewrite run_bind. unfold commit, flush, failed. simpl. by rewrite Heng.
Qed.

Lemma delete_run_failure (w : World) (id : UUID) (i : nat) (a : AtletaModel.t)
    (msg : string) :
  list_find (λ a, AtletaModel.id a = id) (atletas (store w)) = Some (i, a) →
  engine_fault w = Some msg →
  controller.delete id (get_session w)
  = (Raise (OperationalError msg), failed w).
Proof.
  intros Hf Heng. unfold controller.delete.
  rewrite run_bind, (first_atleta_some w id i a Hf).
  rewrite run_bind. unfold session_delete, modify, commit, flush, failed.
  simpl. by rewrite Heng.
Qed.

(** X3.  The partial update has no exception handler around its commit:
    when the storage engine fails the commit of an update of a stored
    athlete, the engine's own exception leaves the handler, not an HTTP
    error with a chosen status and detail.  No row has changed, and the
    handler has not rolled the session back. *)
Theorem patch_commit_failure_is_not_translated
    (w : World) (id : UUID) (atleta_up : AtletaUpdate.t)
    (i : nat) (a : AtletaModel.t) (msg : string) :
  list_find (λ a, AtletaModel.id a = id) (atletas (store w)) = Some (i, a) →
  engine_fault w = Some msg →
  router_patch id atleta_up (get_session w)
  = (Raise (OperationalError msg), failed w) ∧
  (∀ status_code detail,
     fst (router_patch id atleta_up (get_session w))
     ≠ Raise (HTTPException status_code detail)) ∧
  store (failed w) = store w ∧
  transaction (failed w) = Inactive.
Proof.
  intros Hf Heng.
  assert (Hrun : router_patch id atleta_up (get_session w)
                 = (Raise (OperationalError msg), failed w)).
  { unfold router_patch, response_model.
    by rewrite route_run, run_bind, (patch_run_failure w id atleta_up i a msg). }
  split; [exact Hrun|]. split; [|done].
  intros status_code detail. by rewrite Hrun.
Qed.

Lemma patch_commit_failure_is_not_translated_witness :
  engine_fault broken_fixture = Some "connection lost" ∧
  router_patch 10%N (only_peso (decimal 70 1)) (get_session broken_fixture)
  = (Raise (OperationalError "connection lost"), failed broken_fixture).
Proof.
  split; [reflexivity|].
  exact (proj1 (patch_commit_failure_is_not_translated broken_fixture 10%N
                  (only_peso (decimal 70 1)) 0 jane "connection lost"
                  eq_refl eq_refl)).
Defined.

(** X4.  Delete has no exception handler around its commit either: when
    the storage engine fails the commit of the delete of a stored athlete,
    the engine's own exception leaves the handler, the athlete's row is
    still in the table, and the handler has not rolled the session back. *)
Theorem delete_commit_failure_is_not_translated
    (w : World) (id : UUID) (i : nat) (a : AtletaModel.t) (msg : string) :
  list_find (λ a, AtletaModel.id a = id) (atletas (store w)) = Some (i, a) →
  engine_fault w = Some msg →
  router_delete id (get_session w)
  = (Raise (OperationalError msg), failed w) ∧
  (∀ status_code detail,
     fst (router_delete id (get_session w))
     ≠ Raise (HTTPException status_code detail)) ∧
  atletas (store (failed w)) !! i = Some a ∧
  store (failed w) = store w ∧
  transaction (failed w) = Inactive.
Proof.
  intros Hf Heng.
  assert (Hrun : router_delete id (get_session w)
                 = (Raise (OperationalError msg), failed w)).
  { unfold router_delete.
    by rewrite route_run, (delete_run_failure w id i a msg). }
  split; [exact Hrun|]. split; [|split; [|done]].
  - intros status_code detail. by rewrite Hrun.
  - by apply found_row in Hf as (? & _).
Qed.

Lemma delete_commit_failure_is_not_translated_witness :
  engine_fault broken_fixture = Some "connection lost" ∧
  router_delete 10%N (get_session broken_fixture)
  = (Raise (OperationalError "connection lost"), failed broken_fixture) ∧
  atletas (store (failed broken_fixture)) !! 0 = Some jane.
Proof.
  split; [reflexivity|].
  destruct (delete_commit_failure_is_not_translated broken_fixture 10%N
              0 jane "connection lost" eq_refl eq_refl)
    as (Hrun & _ & Hrow & _).
  split; [exact Hrun|exact Hrow].
Defined.

(** ** Update twice *)

Lemma find_after_insert (rows : list AtletaModel.t) (id : UUID) (i : nat)
    (a a' : AtletaModel.t) :
  list_find (λ a, AtletaModel.id a = id) rows = Some (i, a) →
  AtletaModel.id a' = id →
  list_find (λ a, AtletaModel.id a = id) (<[i := a']> rows) = Some (i, a').
Proof.
  intros (Hl & Hid & Hbefore)%list_find_Some Hid'.
  apply list_find_Some. split; [|split; [done|]].
  - apply list_lookup_insert_eq. by eapply lookup_lt_Some.
  - intros j y Hj Hlt. rewrite list_lookup_insert_ne in Hj by lia.
    by apply (Hbefore j).
Qed.

Lemma references_resolve_insert (db : Database) (i : nat)
    (a a' : AtletaModel.t) :
  references_resolve db →
  atletas db !! i = Some a →
  AtletaModel.categoria_id a' = AtletaModel.categoria_id a →
  AtletaModel.centro_treinamento_id a'
  = AtletaModel.centro_treinamento_id a →
  references_resolve (set_atletas (<[i := a']> (atletas db)) db).
Proof.
  intros Href Hl Hc Hct b Hb. simpl in Hb.
  apply elem_of_insert_inv in Hb as [->|Hb]; [|by apply Href].
  rewrite Hc, Hct. apply (Href a). by eapply list_elem_of_lookup_2.
Qed.

Lemma patched_twice (atleta_up : AtletaUpdate.t) (a : AtletaModel.t) :
  patched atleta_up (patched atleta_up a) = patched atleta_up a.
Proof. by destruct atleta_up as [[?|] [?|] [?|] [?|]]. Qed.

(** X5.  The partial update is idempotent: sending the same body for the
    same stored athlete a second time, in a later request, answers 200 with
    the same projection as the first time and leaves the committed tables
    as the first update left them. *)
Theorem patch_twice_is_patch_once
    (w : World) (id : UUID) (atleta_up : AtletaUpdate.t)
    (i : nat) (a : AtletaModel.t) :
  list_find (λ a, AtletaModel.id a = id) (atletas (store w)) = Some (i, a) →
  engine_fault w = None →
  references_resolve (store w) →
  ∃ out w1 w2,
    router_patch id atleta_up (get_session w)
    = (Return (Response.mk HTTP_200_OK out), w1) ∧
    router_patch id atleta_up (get_session w1)
    = (Return (Response.mk HTTP_200_OK out), w2) ∧
    store w2 = store w1.
Proof.
  intros Hf Heng Href.
  destruct (found_row _ _ _ _ Hf) as (Hl & Hid & Hin & Hlen).
  destruct (project_is_Some _ a Href Hin) as [before Hb].
  pose proof (project_patched _ atleta_up a before Hb) as Hout.
  set (a' := patched atleta_up a) in *.
  set (rows' := <[i := a']> (atletas (store w))).
  set (w1 := refreshed i a' rows' w).
  assert (Hf1 : list_find (λ a, AtletaModel.id a = id) (atletas (store w1))
                = Some (i, a')).
  { subst w1 rows'. simpl. by apply (find_after_insert _ id i a a' Hf). }
  eexists _, w1, (refreshed i a' rows' w1).
  split; [|split].
  - unfold router_patch. rewrite route_run.
    erewrite response_model_run;
      [reflexivity|by apply patch_run| |exact Hout].
    apply lookup_singleton_eq.
  - unfold router_patch. rewrite route_run.
    erewrite response_model_run; [reflexivity| | |].
    + rewrite (patch_run w1 id atleta_up i a' Hf1 Heng).
      subst a'. rewrite patched_twice. subst w1 rows'. simpl.
      by rewrite list_insert_insert_eq.
    + apply lookup_singleton_eq.
    + exact Hout.
  - subst w1 rows'. simpl. unfold set_atletas. simpl. done.
Qed.

Lemma patch_twice_is_patch_once_witness :
  list_find (λ a, AtletaModel.id a = 10%N) (atletas (store fixture))
  = Some (0, jane) ∧
  ∃ out w1 w2,
    router_patch 10%N (only_peso (decimal 70 1)) (get_session fixture)
    = (Return (Response.mk HTTP_200_OK out), w1) ∧
    router_patch 10%N (only_peso (decimal 70 1)) (get_session w1)
    = (Return (Response.mk HTTP_200_OK out), w2) ∧
    store w2 = store w1.
Proof.
  split; [reflexivity|].
  exact (patch_twice_is_patch_once fixture 10%N (only_peso (decimal 70 1))
           0 jane eq_refl eq_refl fixture_references_resolve).
Defined.

(** ** Create, then read or create again *)

Lemma find_appended (rows : list AtletaModel.t) (row : AtletaModel.t) :
  (∀ a, a ∈ rows → AtletaModel.id a ≠ AtletaModel.id row) →
  list_find (λ a, AtletaModel.id a = AtletaModel.id row) (rows ++ [row])
  = Some (length rows, row).
Proof.
  intros Hfresh. apply list_find_Some. split; [|split; [done|]].
  - by apply list_lookup_middle.
  - intros j y Hj Hlt. rewrite lookup_app_l in Hj by done.
    apply Hfresh. by eapply list_elem_of_lookup_2.
Qed.

Lemma drawn_id_is_fresh (w : World) :
  Inj (=) (=) (uuid_source w) → ids_drawn w →
  ∀ a, a ∈ atletas (store w) →
       AtletaModel.id a ≠ uuid_source w (uuid_drawn w).
Proof.
  intros Hinj Hdrawn a Ha Hid.
  destruct (Hdrawn a Ha) as (k & Hk & Hka). rewrite Hka in Hid.
  apply Hinj in Hid. lia.
Qed.

Lemma key_identifies {A B} (f : A → B) (l : list A) (x y : A) :
  NoDup (f <$> l) → x ∈ l → y ∈ l → f x = f y → x = y.
Proof.
  intros Hnd [i Hi]%list_elem_of_lookup [j Hj]%list_elem_of_lookup Hf.
  assert (i = j) as ->.
  { apply (proj1 (NoDup_alt _) Hnd i j (f x));
      rewrite list_lookup_fmap; [by rewrite Hi|by rewrite Hj, Hf]. }
  congruence.
Qed.

(** The projection of the row [post] creates is the answer [post] gives,
    when keys identify the rows of the reference tables. *)
Lemma project_created (db : Database) (atleta_in : AtletaIn.t)
    (id : UUID) (now : datetime)
    (c : CategoriaModel.t) (ct : CentroTreinamentoModel.t) :
  keys_unique db →
  c ∈ categorias db →
  CategoriaModel.nome c = CategoriaIn.nome (AtletaIn.categoria atleta_in) →
  ct ∈ centros_treinamento db →
  CentroTreinamentoModel.nome ct
  = CentroTreinamentoAtleta.nome (AtletaIn.centro_treinamento atleta_in) →
  project db (created_row atleta_in id now c ct)
  = Some (created_out atleta_in id now).
Proof.
  intros [Hk1 Hk2] Hc Hcn Hct Hctn. unfold project. simpl.
  destruct (list_find_elem_of
              (λ c0, CategoriaModel.pk_id c0 = CategoriaModel.pk_id c)
              _ c Hc eq_refl) as [[i c'] Hf].
  destruct (list_find_elem_of
              (λ c0, CentroTreinamentoModel.pk_id c0
                     = CentroTreinamentoModel.pk_id ct)
              _ ct Hct eq_refl) as [[j ct'] Hf'].
  rewrite Hf, Hf'. simpl.
  apply list_find_Some in Hf as (Hl & Hpk & _).
  apply list_find_Some in Hf' as (Hl' & Hpk' & _).
  assert (c' = c) as ->.
  { eapply (key_identifies CategoriaModel.pk_id); [exact Hk1| |done|done].
    by eapply list_elem_of_lookup_2. }
  assert (ct' = ct) as ->.
  { eapply (key_identifies CentroTreinamentoModel.pk_id); [exact Hk2| |done|done].
    by eapply list_elem_of_lookup_2. }
  unfold created_out. rewrite Hcn, Hctn.
  by destruct atleta_in as [? ? ? ? ? [?] [?]].
Qed.

(** X6.  What was created can be read back: after a successful create, a
    get-by-id in a later request on the id the create answered with gives
    200 and the very projection the create returned.  This holds when
    [uuid4()] does not repeat a value, the stored ids were drawn from it,
    and keys identify the rows of the two reference tables. *)
Theorem post_then_get_returns_the_created (w : World) (atleta_in : AtletaIn.t) :
  (∃ c, c ∈ categorias (store w) ∧
        CategoriaModel.nome c = CategoriaIn.nome (AtletaIn.categoria atleta_in)) →
  (∃ ct, ct ∈ centros_treinamento (store w) ∧
         CentroTreinamentoModel.nome ct
         = CentroTreinamentoAtleta.nome (AtletaIn.centro_treinamento atleta_in)) →
  engine_fault w = None →
  (∀ a, a ∈ atletas (store w) → AtletaModel.cpf a ≠ AtletaIn.cpf atleta_in) →
  Inj (=) (=) (uuid_source w) →
  ids_drawn w →
  keys_unique (store w) →
  ∃ out w1 w2,
    router_post atleta_in (get_session w)
    = (Return (Response.mk HTTP_201_CREATED out), w1) ∧
    router_get (AtletaOut.id out) (get_session w1)
    = (Return (Response.mk HTTP_200_OK out), w2) ∧
    store w2 = store w1.
Proof.
  intros Hc Hct Heng Hnew Hinj Hdrawn Hkeys.
  destruct (find_some_categoria _ _ Hc) as (i & c & Hfc & Hcin & Hcn).
  destruct (find_some_centro _ _ Hct) as (j & ct & Hfct & Hctin & Hctn).
  set (id := uuid_source w (uuid_drawn w)).
  set (row := created_row atleta_in id (clock w) c ct).
  set (w1 := settled (atletas (store w) ++ [row]) NoTransaction w).
  exists (created_out atleta_in id (clock w)), w1,
         (loaded (length (atletas (store w))) row w1).
  split; [|split; [|done]].
  - unfold router_post. rewrite route_run.
    rewrite (post_after_lookups w atleta_in i j c ct Hfc Hfct), Heng.
    rewrite bool_decide_eq_false_2; [done|].
    intros (a & Ha & Hcpf)%cpf_stored. by apply (Hnew a).
  - assert (Hfind : list_find
              (λ a, AtletaModel.id a = AtletaOut.id (created_out atleta_in id (clock w)))
              (atletas (store w1))
            = Some (length (atletas (store w)), row)).
    { subst w1. simpl. apply (find_appended _ row).
      by apply drawn_id_is_fresh. }
    unfold router_get. rewrite route_run.
    erewrite response_model_run; [reflexivity|by apply get_run| |].
    + apply lookup_singleton_eq.
    + by apply (project_created (store w)).
Qed.

Lemma fixture_keys_unique : keys_unique (store fixture).
Proof. split; apply NoDup_singleton. Qed.

Lemma post_then_get_returns_the_created_witness :
  (∀ a, a ∈ atletas (store fixture) → AtletaModel.cpf a ≠ "11122233344") ∧
  ∃ out w1 w2,
    router_post (joao_in "11122233344" "Scale" "CT King") (get_session fixture)
    = (Return (Response.mk HTTP_201_CREATED out), w1) ∧
    router_get (AtletaOut.id out) (get_session w1)
    = (Return (Response.mk HTTP_200_OK out), w2) ∧
    store w2 = store w1.
Proof.
  split; [exact fixture_lacks_cpf|].
  exact (post_then_get_returns_the_created fixture
           (joao_in "11122233344" "Scale" "CT King")
           fixture_has_scale fixture_has_ct_king eq_refl fixture_lacks_cpf
           fixture_uuid_source_inj fixture_ids_drawn fixture_keys_unique).
Defined.

(** X7.  A CPF can be created once: after a successful create, a second
    create whose category and training center exist and whose CPF is the
    one just created raises the 303 error naming that CPF, and the table is
    the one the first create left. *)
Theorem post_twice_same_cpf_is_303
    (w : World) (atleta_in again : AtletaIn.t) :
  (∃ c, c ∈ categorias (store w) ∧
        CategoriaModel.nome c = CategoriaIn.nome (AtletaIn.categoria atleta_in)) →
  (∃ ct, ct ∈ centros_treinamento (store w) ∧
         CentroTreinamentoModel.nome ct
         = CentroTreinamentoAtleta.nome (AtletaIn.centro_treinamento atleta_in)) →
  engine_fault w = None →
  (∀ a, a ∈ atletas (store w) → AtletaModel.cpf a ≠ AtletaIn.cpf atleta_in) →
  (∃ c, c ∈ categorias (store w) ∧
        CategoriaModel.nome c = CategoriaIn.nome (AtletaIn.categoria again)) →
  (∃ ct, ct ∈ centros_treinamento (store w) ∧
         CentroTreinamentoModel.nome ct
         = CentroTreinamentoAtleta.nome (AtletaIn.centro_treinamento again)) →
  AtletaIn.cpf again = AtletaIn.cpf atleta_in →
  ∃ out w1 w2,
    router_post atleta_in (get_session w)
    = (Return (Response.mk HTTP_201_CREATED out), w1) ∧
    router_post again (get_session w1)
    = (Raise (HTTPException HTTP_303_SEE_OTHER
         ("Já existe um atleta cadastrado com o cpf: " +:+
          AtletaIn.cpf atleta_in)),
       w2) ∧
    store w2 = store w1.
Proof.
  intros Hc Hct Heng Hnew Hc2 Hct2 Hcpf.
  destruct (find_some_categoria _ _ Hc) as (i & c & Hfc & _).
  destruct (find_some_centro _ _ Hct) as (j & ct & Hfct & _).
  destruct (find_some_categoria _ _ Hc2) as (i2 & c2 & Hfc2 & _).
  destruct (find_some_centro _ _ Hct2) as (j2 & ct2 & Hfct2 & _).
  set (row := created_row atleta_in (uuid_source w (uuid_drawn w)) (clock w) c ct).
  set (w1 := settled (atletas (store w) ++ [row]) NoTransaction w).
  exists (created_out atleta_in (uuid_source w (uuid_drawn w)) (clock w)), w1,
         (settled (atletas (store w1)) NoTransaction w1).
  split; [|split].
  - unfold router_post. rewrite route_run.
    rewrite (post_after_lookups w atleta_in i j c ct Hfc Hfct), Heng.
    rewrite bool_decide_eq_false_2; [done|].
    intros (a & Ha & Hcpf')%cpf_stored. by apply (Hnew a).
  - unfold router_post. rewrite route_run.
    rewrite (post_after_lookups w1 again i2 j2 c2 ct2 Hfc2 Hfct2).
    change (engine_fault w1) with (engine_fault w). rewrite Heng.
    rewrite bool_decide_eq_true_2; [by rewrite Hcpf|].
    apply cpf_stored. exists row. split; [|by rewrite Hcpf].
    subst w1. simpl. apply elem_of_app. right. by apply list_elem_of_singleton.
  - apply store_settled_same.
Qed.

Lemma post_twice_same_cpf_is_303_witness :
  (∀ a, a ∈ atletas (store fixture) → AtletaModel.cpf a ≠ "11122233344") ∧
  ∃ out w1 w2,
    router_post (joao_in "11122233344" "Scale" "CT King") (get_session fixture)
    = (Return (Response.mk HTTP_201_CREATED out), w1) ∧
    router_post (joao_in "11122233344" "Scale" "CT King") (get_session w1)
    = (Raise (HTTPException HTTP_303_SEE_OTHER
         "Já existe um atleta cadastrado com o cpf: 11122233344"),
       w2) ∧
    store w2 = store w1.
Proof.
  split; [exact fixture_lacks_cpf|].
  exact (post_twice_same_cpf_is_303 fixture
           (joao_in "11122233344" "Scale" "CT King")
           (joao_in "11122233344" "Scale" "CT King")
           fixture_has_scale fixture_has_ct_king eq_refl fixture_lacks_cpf
           fixture_has_scale fixture_has_ct_king eq_refl).
Defined.

(** ** Ids across creates *)

Lemma route_return_inv {A} (status_code : Z) (handler : M A) (w w1 : World)
    (resp : Response.t A) :
  route status_code handler w = (Return resp, w1) →
  handler w = (Return (Response.body resp), w1) ∧
  Response.status_code resp = status_code.
Proof.
  rewrite route_run. destruct (handler w) as [[body|e] w'].
  - intros [= <- <-]. done.
  - intros [=].
Qed.

(** A create that answers has drawn exactly one id, the one it answers
    with. *)
Lemma post_return_inv (w w1 : World) (atleta_in : AtletaIn.t)
    (out : AtletaOut.t) :
  controller.post atleta_in (get_session w) = (Return out, w1) →
  AtletaOut.id out = uuid_source w (uuid_drawn w) ∧
  uuid_drawn w1 = S (uuid_drawn w) ∧
  uuid_source w1 = uuid_source w.
Proof.
  destruct (list_find (λ c, CategoriaModel.nome c
              = CategoriaIn.nome (AtletaIn.categoria atleta_in))
              (categorias (store w))) as [[i c]|] eqn:Hc.
  - destruct (list_find (λ c, CentroTreinamentoModel.nome c
                = CentroTreinamentoAtleta.nome
                    (AtletaIn.centro_treinamento atleta_in))
                (centros_treinamento (store w))) as [[j ct]|] eqn:Hct.
    + rewrite (post_after_lookups w atleta_in i j c ct Hc Hct).
      destruct (engine_fault w) as [msg|]; [intros [=]|].
      case_bool_decide; [intros [=]|]. intros [= <- <-]. done.
    + unfold controller.post, first_categoria, first_centro_treinamento.
      run. rewrite Hc. run. rewrite Hct. run. intros [=].
  - unfold controller.post, first_categoria. run. rewrite Hc. run. intros [=].
Qed.

(** X8.  Two creates that both answer, one request after the other, answer
    with different ids, as long as [uuid4()] does not return a value
    twice: each create draws its own id. *)
Theorem consecutive_creates_answer_distinct_ids
    (w w1 w2 : World) (first second : AtletaIn.t)
    (resp1 resp2 : Response.t AtletaOut.t) :
  Inj (=) (=) (uuid_source w) →
  router_post first (get_session w) = (Return resp1, w1) →
  router_post second (get_session w1) = (Return resp2, w2) →
  AtletaOut.id (Response.body resp1) ≠ AtletaOut.id (Response.body resp2).
Proof.
  intros Hinj [H1 _]%route_return_inv [H2 _]%route_return_inv.
  apply post_return_inv in H1 as (Hid1 & Hd1 & Hs1).
  apply post_return_inv in H2 as (Hid2 & _ & _).
  rewrite Hid1, Hid2, Hs1, Hd1. intros Heq. apply Hinj in Heq. lia.
Qed.

Lemma consecutive_creates_answer_distinct_ids_witness :
  ∃ resp1 w1 resp2 w2,
    router_post (joao_in "11122233344" "Scale" "CT King") (get_session fixture)
    = (Return resp1, w1) ∧
    router_post (joao_in "99988877766" "Scale" "CT King") (get_session w1)
    = (Return resp2, w2) ∧
    AtletaOut.id (Response.body resp1) ≠ AtletaOut.id (Response.body resp2).
Proof.
  pose (first := joao_in "11122233344" "Scale" "CT King").
  pose (second := joao_in "99988877766" "Scale" "CT King").
  pose (c := CategoriaModel.mk 1%Z "Scale").
  pose (ct := CentroTreinamentoModel.mk 7%Z "CT King").
  pose (w1 := settled [jane; created_row first 11%N 2000%Z c ct]
                      NoTransaction fixture).
  pose (w2 := settled [jane; created_row first 11%N 2000%Z c ct;
                       created_row second 12%N 2000%Z c ct]
                      NoTransaction w1).
  exists (Response.mk 201 (created_out first 11%N 2000%Z)), w1,
         (Response.mk 201 (created_out second 12%N 2000%Z)), w2.
  split; [reflexivity|]. split; [reflexivity|].
  exact (consecutive_creates_answer_distinct_ids fixture w1 w2 first second
           _ _ fixture_uuid_source_inj eq_refl eq_refl).
Defined.

(** ** Delete, then create *)

Lemma deleted_key_is_free {A B} (f : A → B) (l : list A) (i : nat) (x : A) :
  NoDup (f <$> l) → l !! i = Some x → f x ∉ f <$> delete i l.
Proof.
  intros Hnd Hi. rewrite list_fmap_delete.
  intros [j Hj]%list_elem_of_lookup.
  rewrite list_lookup_delete in Hj.
  assert (Hfi : (f <$> l) !! i = Some (f x)) by by rewrite list_lookup_fmap, Hi.
  case_decide.
  - assert (j = i) by (by eapply (proj1 (NoDup_alt _) Hnd)). lia.
  - assert (S j = i) by (by eapply (proj1 (NoDup_alt _) Hnd)). lia.
Qed.

(** X9.  The delete is a hard delete for the uniqueness of the CPF too:
    once a stored athlete is deleted, a create with that athlete's CPF, in
    a later request and naming an existing category and training center,
    answers 201.  This holds in a store whose athletes have distinct
    CPFs. *)
Theorem delete_then_post_same_cpf_is_201
    (w : World) (id : UUID) (i : nat) (a : AtletaModel.t)
    (atleta_in : AtletaIn.t) :
  list_find (λ a, AtletaModel.id a = id) (atletas (store w)) = Some (i, a) →
  engine_fault w = None →
  NoDup (AtletaModel.cpf <$> atletas (store w)) →
  (∃ c, c ∈ categorias (store w) ∧
        CategoriaModel.nome c = CategoriaIn.nome (AtletaIn.categoria atleta_in)) →
  (∃ ct, ct ∈ centros_treinamento (store w) ∧
         CentroTreinamentoModel.nome ct
         = CentroTreinamentoAtleta.nome (AtletaIn.centro_treinamento atleta_in)) →
  AtletaIn.cpf atleta_in = AtletaModel.cpf a →
  ∃ w1 out w2,
    router_delete id (get_session w)
    = (Return (Response.mk HTTP_204_NO_CONTENT ()), w1) ∧
    router_post atleta_in (get_session w1)
    = (Return (Response.mk HTTP_201_CREATED out), w2) ∧
    AtletaOut.cpf out = AtletaModel.cpf a ∧
    (∃ row, row ∈ atletas (store w2) ∧ AtletaModel.cpf row = AtletaModel.cpf a
            ∧ AtletaModel.id row = AtletaOut.id out).
Proof.
  intros Hf Heng Hnd Hc Hct Hcpf.
  destruct (found_row _ _ _ _ Hf) as (Hl & _ & _ & _).
  destruct (find_some_categoria _ _ Hc) as (k & c & Hfc & _).
  destruct (find_some_centro _ _ Hct) as (j & ct & Hfct & _).
  set (w1 := committed (delete i (atletas (store w))) w).
  set (id' := uuid_source w1 (uuid_drawn w1)).
  set (row := created_row atleta_in id' (clock w1) c ct).
  exists w1, (created_out atleta_in id' (clock w1)),
         (settled (atletas (store w1) ++ [row]) NoTransaction w1).
  split; [|split; [|split; [done|]]].
  - unfold router_delete. rewrite route_run.
    by rewrite (delete_run w id i a Hf Heng).
  - unfold router_post. rewrite route_run.
    rewrite (post_after_lookups w1 atleta_in k j c ct Hfc Hfct).
    change (engine_fault w1) with (engine_fault w). rewrite Heng.
    rewrite bool_decide_eq_false_2; [done|].
    rewrite Hcpf. subst w1. simpl. by apply deleted_key_is_free.
  - exists row. split; [|done]. simpl.
    apply elem_of_app. right. by apply list_elem_of_singleton.
Qed.

Lemma delete_then_post_same_cpf_is_201_witness :
  list_find (λ a, AtletaModel.id a = 10%N) (atletas (store fixture))
  = Some (0, jane) ∧
  ∃ w1 out w2,
    router_delete 10%N (get_session fixture)
    = (Return (Response.mk HTTP_204_NO_CONTENT ()), w1) ∧
    router_post (joao_in "12345678900" "Scale" "CT King") (get_session w1)
    = (Return (Response.mk HTTP_201_CREATED out), w2) ∧
    AtletaOut.cpf out = "12345678900".
Proof.
  split; [reflexivity|].
  destruct (delete_then_post_same_cpf_is_201 fixture 10%N 0 jane
              (joao_in "12345678900" "Scale" "CT King") eq_refl eq_refl
              (NoDup_singleton "12345678900")
              fixture_has_scale fixture_has_ct_king eq_refl)
    as (w1 & out & w2 & H1 & H2 & H3 & _).
  exists w1, out, w2. split; [exact H1|]. split; [exact H2|exact H3].
Defined.

(** ** The two list handlers side by side *)

Lemma query_run (w : World) (nome cpf : option string) (outs : list AtletaOut.t) :
  mapM (project (store w)) (filter (selected nome cpf) (atletas (store w)))
  = Some outs →
  router_query nome cpf (get_session w)
  = (Return (Response.mk HTTP_200_OK outs), begun w).
Proof.
  intros Houts. unfold router_query, route.
  rewrite query_statement, !run_bind, scalars_all_run, statement_selected.
  by rewrite (mapM_model_validate _ (begun w) outs Houts).
Qed.

Lemma mapM_take_drop {A B} (f : A → option B) (l : list A) (k : list B)
    (n m : nat) :
  mapM f l = Some k → mapM f (take n (drop m l)) = Some (take n (drop m k)).
Proof.
  rewrite !mapM_Some. intros H. by apply Forall2_take, Forall2_drop.
Qed.

(** X10.  The paginated list applies the same filters as the list: in a
    store whose references resolve, the page's total is the number of
    athletes the list handler answers with for the same [nome] and [cpf],
    and the page's items are the slice of that answer the page and size
    select, never more than [size] of them. *)
Theorem query_paginated_is_a_slice_of_query
    (w : World) (params : Params.t) (nome cpf : option string) :
  references_resolve (store w) →
  ∃ outs,
    router_query nome cpf (get_session w)
    = (Return (Response.mk HTTP_200_OK outs), begun w) ∧
    let items :=
      take (Params.size params)
           (drop ((Params.page params - 1) * Params.size params) outs) in
    router_query_paginated params nome cpf (get_session w)
    = (Return (Response.mk HTTP_200_OK
         (Page.mk items (length outs)
                  (Params.page params) (Params.size params))),
       begun w) ∧
    (length items ≤ Params.size params)%nat.
Proof.
  intros Href.
  destruct (project_all (store w)
              (filter (selected nome cpf) (atletas (store w))) Href)
    as [outs Houts].
  { intros a Ha. by apply list_elem_of_filter in Ha as [_ Ha]. }
  exists outs. split; [by apply query_run|]. intros items. split.
  - unfold router_query_paginated, route.
    rewrite query_paginated_statement. unfold paginate.
    rewrite !run_bind, scalars_all_run, statement_selected.
    rewrite run_bind, (mapM_model_validate _ (begun w) items).
    + by rewrite (length_mapM _ _ _ Houts).
    + by apply mapM_take_drop.
  - subst items. rewrite length_take. lia.
Qed.

Lemma query_paginated_is_a_slice_of_query_witness :
  references_resolve (store fixture) ∧
  router_query_paginated (Params.mk 1 50) (Some "Jane") None
                         (get_session fixture)
  = (Return (Response.mk HTTP_200_OK (Page.mk [jane_out] 1 1 50)),
     begun fixture).
Proof.
  split; [exact fixture_references_resolve|].
  destruct (query_paginated_is_a_slice_of_query fixture (Params.mk 1 50)
              (Some "Jane") None fixture_references_resolve)
    as (outs & Hq & Hp & _).
  injection Hq as <-. exact Hp.
Defined.

Lemma mapM_filter {A B} (f : A → option B) (P : A → Prop) (Q : B → Prop)
    `{∀ x, Decision (P x)} `{∀ y, Decision (Q y)} (l : list A) (k : list B) :
  (∀ x y, f x = Some y → P x ↔ Q y) →
  mapM f l = Some k →
  mapM f (filter P l) = Some (filter Q k).
Proof.
  intros HPQ. rewrite !mapM_Some. induction 1 as [|x y l k Hxy _ IH].
  - constructor.
  - destruct (decide (P x)) as [HP|HP].
    + rewrite filter_cons_True by done.
      rewrite filter_cons_True by by apply (HPQ x y Hxy).
      by constructor.
    + rewrite filter_cons_False by done.
      rewrite filter_cons_False by (by rewrite <- (HPQ x y Hxy)).
      done.
Qed.

Lemma project_keeps_nome_cpf (db : Database) (a : AtletaModel.t)
    (out : AtletaOut.t) :
  project db a = Some out →
  AtletaOut.nome out = AtletaModel.nome a ∧
  AtletaOut.cpf out = AtletaModel.cpf a.
Proof.
  unfold project.
  destruct (list_find _ (categorias db)) as [[? c]|]; [|done].
  destruct (list_find _ (centros_treinamento db)) as [[? ct]|]; [|done].
  simpl. by intros [= <-].
Qed.

(** X11.  The two filters of the list handler are independent and joined
    by "and": in a store whose references resolve, the answer to a request
    with both [nome] and [cpf] is the answer to the request with [nome]
    alone, restricted to the athletes the [cpf] filter keeps, and equally
    the answer to the request with [cpf] alone restricted by [nome]. *)
Theorem query_filters_are_conjoined
    (w : World) (nome cpf : option string) :
  references_resolve (store w) →
  ∃ by_nome by_cpf both,
    router_query nome None (get_session w)
    = (Return (Response.mk HTTP_200_OK by_nome), begun w) ∧
    router_query None cpf (get_session w)
    = (Return (Response.mk HTTP_200_OK by_cpf), begun w) ∧
    router_query nome cpf (get_session w)
    = (Return (Response.mk HTTP_200_OK both), begun w) ∧
    both = filter (λ o, filter_applies cpf (AtletaOut.cpf o)) by_nome ∧
    both = filter (λ o, filter_applies nome (AtletaOut.nome o)) by_cpf.
Proof.
  intros Href.
  assert (Hall : ∀ n c, is_Some (mapM (project (store w))
                   (filter (selected n c) (atletas (store w))))).
  { intros n c. apply project_all; [done|].
    intros a Ha. by apply list_elem_of_filter in Ha as [_ Ha]. }
  destruct (Hall nome None) as [by_nome Hn].
  destruct (Hall None cpf) as [by_cpf Hc].
  exists by_nome, by_cpf,
    (filter (λ o, filter_applies cpf (AtletaOut.cpf o)) by_nome).
  split; [by apply query_run|]. split; [by apply query_run|].
  assert (Hsplit1 : filter (selected nome cpf) (atletas (store w))
            = filter (λ a, filter_applies cpf (AtletaModel.cpf a))
                     (filter (selected nome None) (atletas (store w)))).
  { rewrite list_filter_filter. apply list_filter_iff.
    intros a. unfold selected. simpl. tauto. }
  assert (Hsplit2 : filter (selected nome cpf) (atletas (store w))
            = filter (λ a, filter_applies nome (AtletaModel.nome a))
                     (filter (selected None cpf) (atletas (store w)))).
  { rewrite list_filter_filter. apply list_filter_iff.
    intros a. unfold selected. simpl. tauto. }
  assert (Hcpf : ∀ a o, project (store w) a = Some o →
            filter_applies cpf (AtletaModel.cpf a)
            ↔ filter_applies cpf (AtletaOut.cpf o)).
  { intros a o Ho. by apply project_keeps_nome_cpf in Ho as [_ ->]. }
  assert (Hnome : ∀ a o, project (store w) a = Some o →
            filter_applies nome (AtletaModel.nome a)
            ↔ filter_applies nome (AtletaOut.nome o)).
  { intros a o Ho. by apply project_keeps_nome_cpf in Ho as [-> _]. }
  pose proof (mapM_filter (project (store w))
                (λ a, filter_applies cpf (AtletaModel.cpf a))
                (λ o, filter_applies cpf (AtletaOut.cpf o))
                _ by_nome Hcpf Hn) as H1.
  pose proof (mapM_filter (project (store w))
                (λ a, filter_applies nome (AtletaModel.nome a))
                (λ o, filter_applies nome (AtletaOut.nome o))
                _ by_cpf Hnome Hc) as H2.
  rewrite <- Hsplit1 in H1. rewrite <- Hsplit2 in H2.
  split; [by apply query_run|]. split; [done|].
  apply (inj Some). by rewrite <- H1, <- H2.
Qed.

Lemma query_filters_are_conjoined_witness :
  references_resolve (store fixture) ∧
  ∃ by_nome by_cpf both,
    router_query (Some "Jane") None (get_session fixture)
    = (Return (Response.mk HTTP_200_OK by_nome), begun fixture) ∧
    router_query None (Some "00000000000") (get_session fixture)
    = (Return (Response.mk HTTP_200_OK by_cpf), begun fixture) ∧
    router_query (Some "Jane") (Some "00000000000") (get_session fixture)
    = (Return (Response.mk HTTP_200_OK both), begun fixture) ∧
    both = filter (λ o, filter_applies (Some "00000000000") (AtletaOut.cpf o))
                  by_nome ∧
    both = filter (λ o, filter_applies (Some "Jane") (AtletaOut.nome o))
                  by_cpf.
Proof.
  split; [exact fixture_references_resolve|].
  exact (query_filters_are_conjoined fixture (Some "Jane")
           (Some "00000000000") fixture_references_resolve).
Defined.

(** ** Create, then list *)

(** X12.  A created athlete is listed: after a successful create, the
    unfiltered list of a later request answers with every projection it
    answered with before the create and with the projection the create
    returned, one athlete more in all.  This holds in a store whose
    references resolve and where keys identify the rows of the reference
    tables. *)
Theorem post_then_query_lists_the_created (w : World) (atleta_in : AtletaIn.t) :
  (∃ c, c ∈ categorias (store w) ∧
        CategoriaModel.nome c = CategoriaIn.nome (AtletaIn.categoria atleta_in)) →
  (∃ ct, ct ∈ centros_treinamento (store w) ∧
         CentroTreinamentoModel.nome ct
         = CentroTreinamentoAtleta.nome (AtletaIn.centro_treinamento atleta_in)) →
  engine_fault w = None →
  (∀ a, a ∈ atletas (store w) → AtletaModel.cpf a ≠ AtletaIn.cpf atleta_in) →
  references_resolve (store w) →
  keys_unique (store w) →
  ∃ out w1 before after,
    router_query None None (get_session w)
    = (Return (Response.mk HTTP_200_OK before), begun w) ∧
    router_post atleta_in (get_session w)
    = (Return (Response.mk HTTP_201_CREATED out), w1) ∧
    router_query None None (get_session w1)
    = (Return (Response.mk HTTP_200_OK after), begun w1) ∧
    out ∈ after ∧
    (∀ o, o ∈ before → o ∈ after) ∧
    length after = S (length before).
Proof.
  intros Hc Hct Heng Hnew Href Hkeys.
  destruct (find_some_categoria _ _ Hc) as (i & c & Hfc & Hcin & Hcn).
  destruct (find_some_centro _ _ Hct) as (j & ct & Hfct & Hctin & Hctn).
  set (id := uuid_source w (uuid_drawn w)).
  set (row := created_row atleta_in id (clock w) c ct).
  set (out := created_out atleta_in id (clock w)).
  set (w1 := settled (atletas (store w) ++ [row]) NoTransaction w).
  destruct (project_all (store w) (atletas (store w)) Href) as [before Hb];
    [done|].
  assert (Hall : ∀ rows : list AtletaModel.t, filter (selected None None) rows = rows).
  { intros rows. apply filter_all. intros a. by split. }
  assert (Ha : mapM (project (store w1)) (atletas (store w1))
               = Some ((before ++ [out])%list)).
  { subst w1. simpl. apply mapM_Some, Forall2_app.
    - by apply mapM_Some in Hb.
    - constructor; [|constructor].
      by apply (project_created (store w)). }
  exists out, w1, before, ((before ++ [out])%list).
  split; [apply query_run; by rewrite Hall|].
  split; [|split; [apply query_run; by rewrite Hall|]].
  - unfold router_post. rewrite route_run.
    rewrite (post_after_lookups w atleta_in i j c ct Hfc Hfct), Heng.
    rewrite bool_decide_eq_false_2; [done|].
    intros (a & Ha' & Hcpf)%cpf_stored. by apply (Hnew a).
  - split; [|split].
    + apply elem_of_app. right. by apply list_elem_of_singleton.
    + intros o Ho. apply elem_of_app. by left.
    + rewrite length_app. simpl. lia.
Qed.

Lemma post_then_query_lists_the_created_witness :
  (∀ a, a ∈ atletas (store fixture) → AtletaModel.cpf a ≠ "11122233344") ∧
  ∃ out w1 before after,
    router_query None None (get_session fixture)
    = (Return (Response.mk HTTP_200_OK before), begun fixture) ∧
    router_post (joao_in "11122233344" "Scale" "CT King") (get_session fixture)
    = (Return (Response.mk HTTP_201_CREATED out), w1) ∧
    router_query None None (get_session w1)
    = (Return (Response.mk HTTP_200_OK after), begun w1) ∧
    out ∈ after ∧
    (∀ o, o ∈ before → o ∈ after) ∧
    length after = S (length before).
Proof.
  split; [exact fixture_lacks_cpf|].
  exact (post_then_query_lists_the_created fixture
           (joao_in "11122233344" "Scale" "CT King")
           fixture_has_scale fixture_has_ct_king eq_refl fixture_lacks_cpf
           fixture_references_resolve fixture_keys_unique).
Defined.

(** ** The invariant on the fixture *)

Lemma fixture_consistent : consistent fixture.
Proof.
  split.
  - apply NoDup_singleton.
  - apply NoDup_singleton.
  - exact fixture_ids_drawn.
  - exact fixture_references_resolve.
  - exact fixture_uuid_source_inj.
Qed.

Lemma post_preserves_consistent_witness :
  consistent fixture ∧
  consistent (snd (router_post (joao_in "11122233344" "Scale" "CT King")
                               (get_session fixture))).
Proof.
  split; [exact fixture_consistent|].
  exact (post_preserves_consistent fixture
           (joao_in "11122233344" "Scale" "CT King") fixture_consistent).
Defined.

Lemma delete_preserves_consistent_witness :
  consistent fixture ∧
  consistent (snd (router_delete 10%N (get_session fixture))).
Proof.
  split; [exact fixture_consistent|].
  exact (delete_preserves_consistent fixture 10%N fixture_consistent).
Defined.

(** ** Update, then read *)

(** X16.  What was updated can be read back: after a partial update of a
    stored athlete has answered, a get-by-id on the same id in a later
    request answers 200 with the projection the update returned. *)
Theorem patch_then_get_returns_the_updated
    (w : World) (id : UUID) (atleta_up : AtletaUpdate.t)
    (i : nat) (a : AtletaModel.t) :
  list_find (λ a, AtletaModel.id a = id) (atletas (store w)) = Some (i, a) →
  engine_fault w = None →
  references_resolve (store w) →
  ∃ out w1 w2,
    router_patch id atleta_up (get_session w)
    = (Return (Response.mk HTTP_200_OK out), w1) ∧
    router_get id (get_session w1)
    = (Return (Response.mk HTTP_200_OK out), w2) ∧
    store w2 = store w1.
Proof.
  intros Hf Heng Href.
  destruct (found_row _ _ _ _ Hf) as (Hl & Hid & Hin & Hlen).
  destruct (project_is_Some _ a Href Hin) as [before Hb].
  pose proof (project_patched _ atleta_up a before Hb) as Hout.
  set (a' := patched atleta_up a) in *.
  set (rows' := <[i := a']> (atletas (store w))).
  set (w1 := refreshed i a' rows' w).
  assert (Hf1 : list_find (λ a, AtletaModel.id a = id) (atletas (store w1))
                = Some (i, a')).
  { subst w1 rows'. simpl. by apply (find_after_insert _ id i a a' Hf). }
  eexists _, w1, (loaded i a' w1).
  split; [|split; [|done]].
  - unfold router_patch. rewrite route_run.
    erewrite response_model_run;
      [reflexivity|by apply patch_run| |exact Hout].
    apply lookup_singleton_eq.
  - unfold router_get. rewrite route_run.
    erewrite response_model_run;
      [reflexivity|by apply get_run| |exact Hout].
    apply lookup_singleton_eq.
Qed.

Lemma patch_then_get_returns_the_updated_witness :
  list_find (λ a, AtletaModel.id a = 10%N) (atletas (store fixture))
  = Some (0, jane) ∧
  ∃ out w1 w2,
    router_patch 10%N (only_peso (decimal 70 1)) (get_session fixture)
    = (Return (Response.mk HTTP_200_OK out), w1) ∧
    router_get 10%N (get_session w1)
    = (Return (Response.mk HTTP_200_OK out), w2) ∧
    store w2 = store w1.
Proof.
  split; [reflexivity|].
  exact (patch_then_get_returns_the_updated fixture 10%N
           (only_peso (decimal 70 1)) 0 jane eq_refl eq_refl
           fixture_references_resolve).
Defined.

(** ** Filters given as the empty string *)

Lemma query_paginated_run (w : World) (params : Params.t)
    (nome cpf : option string) (outs : list AtletaOut.t) :
  mapM (project (store w)) (filter (selected nome cpf) (atletas (store w)))
  = Some outs →
  router_query_paginated params nome cpf (get_session w)
  = (Return (Response.mk HTTP_200_OK (page_of params outs)), begun w).
Proof.
  intros Houts. unfold router_query_paginated, route.
  rewrite query_paginated_statement. unfold paginate.
  rewrite !run_bind, scalars_all_run, statement_selected.
  rewrite run_bind, (mapM_model_validate _ (begun w)
    (take (Params.size params)
          (drop ((Params.page params - 1) * Params.size params) outs))).
  - unfold page_of. by rewrite (length_mapM _ _ _ Houts).
  - by apply mapM_take_drop.
Qed.

Lemma mapM_elem_of {A B} (f : A → option B) (l : list A) (k : list B) (x : A) :
  mapM f l = Some k → x ∈ l → ∃ y, y ∈ k ∧ f x = Some y.
Proof.
  rewrite mapM_Some. induction 1 as [|x' y l k Hxy _ IH].
  - intros []%elem_of_nil.
  - intros [->|Hx]%elem_of_cons.
    + exists y. split; [by left|done].
    + destruct (IH Hx) as (y' & Hy' & Hf). exists y'. split; [by right|done].
Qed.

Lemma selected_empty_nome (cpf : option string) (rows : list AtletaModel.t) :
  filter (selected (Some "") cpf) rows
  = filter (λ a, filter_applies cpf (AtletaModel.cpf a)) rows.
Proof.
  apply list_filter_iff. intros a. unfold selected. simpl. tauto.
Qed.

Lemma selected_empty_cpf (nome : option string) (rows : list AtletaModel.t) :
  filter (selected nome (Some "")) rows
  = filter (λ a, filter_applies nome (AtletaModel.nome a)) rows.
Proof.
  apply list_filter_iff. intros a. unfold selected. simpl. tauto.
Qed.

(** C9.  In both list handlers a [nome] or [cpf] parameter given as the
    empty string is treated as the parameter left out, and no filter is
    applied for that field.  The handlers at the empty string are the
    handlers at the absent parameter.  And, in a store whose references
    resolve, the answer to [nome=""] is the projection of every athlete the
    [cpf] filter keeps, whatever the athlete's name: each such athlete is
    in the list, and the page is cut from that list.  The same holds with
    [cpf=""] and the [nome] filter. *)
Theorem empty_string_filter_restricts_nothing
    (w : World) (params : Params.t) (nome cpf : option string) :
  references_resolve (store w) →
  (router_query (Some "") cpf = router_query None cpf ∧
   router_query nome (Some "") = router_query nome None ∧
   router_query_paginated params (Some "") cpf
   = router_query_paginated params None cpf ∧
   router_query_paginated params nome (Some "")
   = router_query_paginated params nome None) ∧
  ∃ by_cpf by_nome,
    mapM (project (store w))
         (filter (λ a, filter_applies cpf (AtletaModel.cpf a))
                 (atletas (store w)))
    = Some by_cpf ∧
    mapM (project (store w))
         (filter (λ a, filter_applies nome (AtletaModel.nome a))
                 (atletas (store w)))
    = Some by_nome ∧
    router_query (Some "") cpf (get_session w)
    = (Return (Response.mk HTTP_200_OK by_cpf), begun w) ∧
    router_query nome (Some "") (get_session w)
    = (Return (Response.mk HTTP_200_OK by_nome), begun w) ∧
    router_query_paginated params (Some "") cpf (get_session w)
    = (Return (Response.mk HTTP_200_OK (page_of params by_cpf)), begun w) ∧
    router_query_paginated params nome (Some "") (get_session w)
    = (Return (Response.mk HTTP_200_OK (page_of params by_nome)), begun w) ∧
    (∀ a, a ∈ atletas (store w) →
          filter_applies cpf (AtletaModel.cpf a) →
          ∃ out, out ∈ by_cpf ∧ project (store w) a = Some out ∧
                 AtletaOut.nome out = AtletaModel.nome a) ∧
    (∀ a, a ∈ atletas (store w) →
          filter_applies nome (AtletaModel.nome a) →
          ∃ out, out ∈ by_nome ∧ project (store w) a = Some out ∧
                 AtletaOut.cpf out = AtletaModel.cpf a).
Proof.
  intros Href. split; [repeat split; reflexivity|].
  destruct (project_all (store w)
              (filter (λ a, filter_applies cpf (AtletaModel.cpf a))
                      (atletas (store w))) Href) as [by_cpf Hc].
  { intros a Ha. by apply list_elem_of_filter in Ha as [_ Ha]. }
  destruct (project_all (store w)
              (filter (λ a, filter_applies nome (AtletaModel.nome a))
                      (atletas (store w))) Href) as [by_nome Hn].
  { intros a Ha. by apply list_elem_of_filter in Ha as [_ Ha]. }
  exists by_cpf, by_nome.
  split; [exact Hc|]. split; [exact Hn|].
  split; [apply query_run; by rewrite selected_empty_nome|].
  split; [apply query_run; by rewrite selected_empty_cpf|].
  split; [apply query_paginated_run; by rewrite selected_empty_nome|].
  split; [apply query_paginated_run; by rewrite selected_empty_cpf|].
  split.
  - intros a Ha Hf.
    destruct (mapM_elem_of _ _ _ a Hc) as (out & Hout & Hp).
    { by apply list_elem_of_filter. }
    exists out. split; [done|]. split; [done|].
    by apply project_keeps_nome_cpf in Hp as [? _].
  - intros a Ha Hf.
    destruct (mapM_elem_of _ _ _ a Hn) as (out & Hout & Hp).
    { by apply list_elem_of_filter. }
    exists out. split; [done|]. split; [done|].
    by apply project_keeps_nome_cpf in Hp as [_ ?].
Qed.

Lemma empty_string_filter_restricts_nothing_witness :
  references_resolve (store fixture) ∧
  router_query (Some "") None (get_session fixture)
  = (Return (Response.mk HTTP_200_OK [jane_out]), begun fixture) ∧
  router_query_paginated (Params.mk 1 50) (Some "") None (get_session fixture)
  = (Return (Response.mk HTTP_200_OK (Page.mk [jane_out] 1 1 50)),
     begun fixture) ∧
  AtletaOut.nome jane_out ≠ "".
Proof.
  split; [exact fixture_references_resolve|].
  destruct (empty_string_filter_restricts_nothing fixture (Params.mk 1 50)
              None None fixture_references_resolve)
    as (_ & by_cpf & by_nome & Hc & _ & Hq & _ & Hp & _).
  injection Hc as <-.
  split; [exact Hq|]. split; [exact Hp|]. discriminate.
Defined.
